(** * GDP dashboard: the data loader and the aggregation pipeline of [app.py]

    The script loads [gdp.csv] into a pandas DataFrame ([load_data]), keeps the
    rows of a year range and of the selected countries ([filtered_df]) and
    annotates them with the year-over-year growth of each country
    ([calculate_gdp_growth]).  Everything else in the script is rendering.

    The embedding follows the script statement by statement.  The pandas and
    Streamlit calls it makes are given their library semantics:
    - a float64 column is a list of IEEE 754 binary64 numbers (Rocq's primitive
      floats), with NaN as the missing value, as in pandas;
    - [sort_values] on several keys is a stable sort;
    - [groupby(k)[c].pct_change()] fills, shifts and divides inside each group
      of equal key, wherever the rows of the group are in the frame;
    - [df[name] = column] replaces the column [name] or adds it;
    - [@st.cache_data] runs the function when nothing is cached and stores
      what it returns. *)

From Stdlib Require Import Floats ZArith List Bool Ascii String Lia.
From Stdlib Require Import Sorting.Sorted Sorting.Permutation.
From stdpp Require Import gmap strings list.
Import ListNotations.

Local Open Scope string_scope.

(** ** Values *)

(** A cell of a column: a Python string (object dtype), an int64 or a
    float64.  A missing value is [Flt nan]. *)
Inductive cell : Type :=
  | Str (s : string)
  | Int (z : Z)
  | Flt (f : float).

Definition NaN : cell := Flt nan.

(** ** The data loader (app.py, lines 26-45) *)

(** The frame [pd.read_csv] returns: the columns in file order, each with its
    label and its values. *)
Abbreviation RawFrame := (list (string * list cell)) (only parsing).

(** [df.columns] *)
Definition columns (df : RawFrame) : list string := map fst df.

(** [name in df.columns] *)
Definition has_column (name : string) (df : RawFrame) : bool :=
  existsb (String.eqb name) (columns df).

(** [df[name]]; [None] is the KeyError of a missing column. *)
Fixpoint getitem (df : RawFrame) (name : string) : option (list cell) :=
  match df with
  | [] => None
  | (n, c) :: df' => if String.eqb n name then Some c else getitem df' name
  end.

(** [df.rename(columns={old: new}, inplace=True)]: every label equal to [old]
    becomes [new]; the values stay. *)
Definition rename (df : RawFrame) (old new : string) : RawFrame :=
  map (fun nc => (if String.eqb (fst nc) old then new else fst nc, snd nc)) df.

(** [df[name] = col]: the column [name] gets the values [col]; a frame without
    such a column gets it as its last column. *)
Definition setitem (df : RawFrame) (name : string) (col : list cell) : RawFrame :=
  if has_column name df
  then map (fun nc => if String.eqb (fst nc) name then (name, col) else nc) df
  else (df ++ [(name, col)])%list.

(** The literal of lines 33-40. *)
Definition region_map : list (string * list string) :=
  [ ("Asia", ["CN"; "IN"; "JP"; "ID"; "KR"; "SG"; "SA"]);
    ("Europe", ["DE"; "FR"; "GB"; "IT"; "RU"; "ES"]);
    ("North America", ["US"; "CA"; "MX"]);
    ("South America", ["BR"; "AR"; "CO"]);
    ("Africa", ["ZA"; "NG"; "EG"; "KE"]);
    ("Oceania", ["AU"; "NZ"]) ].

(** [{code: region for region, codes in items for code in codes}]: a dict
    comprehension inserts in iteration order, a later key replacing an
    earlier one. *)
Definition dict_comprehension (items : list (string * list string))
  : gmap string string :=
  foldl (fun d rc => foldl (fun d code => <[code := fst rc]> d) d (snd rc))
        ∅ items.

Definition reverse_region : gmap string string := dict_comprehension region_map.

(** [Series.map(d)] with a dict: a value that is no key of [d] gives NaN. *)
Definition map_cell (d : gmap string string) (c : cell) : cell :=
  match c with
  | Str s => match d !! s with Some r => Str r | None => NaN end
  | _ => NaN
  end.

Definition series_map (col : list cell) (d : gmap string string) : list cell :=
  map (map_cell d) col.

(** Lines 30-43 of [load_data], on the frame read from the file. *)
Definition load_data_frame (df : RawFrame) : RawFrame :=
  let df := if has_column "Value" df then rename df "Value" "GDP" else df in
  if has_column "Country Code" df then
    match getitem df "Country Code" with
    | Some codes => setitem df "Region" (series_map codes reverse_region)
    | None => df (* no KeyError here: the column is in [df.columns] *)
    end
  else df.

(** *** The cache of [@st.cache_data] *)

(** What a run of the script can observe of the process: the content of
    [gdp.csv] ([None] when the file is missing or does not parse), the cache
    entry of [load_data], and how often the file has been read. *)
Record world : Type := mkWorld {
  gdp_csv : option RawFrame;
  cache : option RawFrame;
  reads : nat
}.

(** The process as it starts: nothing cached, nothing read. *)
Definition boot (file : option RawFrame) : world :=
  {| gdp_csv := file; cache := None; reads := 0 |}.

(** [pd.read_csv("gdp.csv")]; [None] is the exception it raises. *)
Definition read_csv (w : world) : option RawFrame * world :=
  (gdp_csv w, {| gdp_csv := gdp_csv w; cache := cache w; reads := S (reads w) |}).

(** The body of [load_data]. *)
Definition load_data_body (w : world) : option RawFrame * world :=
  let (r, w') := read_csv w in (option_map load_data_frame r, w').

(** The decorator: a cached value is returned as it is; otherwise the body
    runs and what it returns is stored.  An exception is not stored. *)
Definition cache_data (body : world -> option RawFrame * world) (w : world)
  : option RawFrame * world :=
  match cache w with
  | Some v => (Some v, w)
  | None =>
      let (r, w') := body w in
      match r with
      | Some v => (r, {| gdp_csv := gdp_csv w'; cache := Some v; reads := reads w' |})
      | None => (r, w')
      end
  end.

Definition load_data : world -> option RawFrame * world := cache_data load_data_body.

(** What happens during the life of the process: the script runs again (and
    calls [load_data()] at line 45), or the file changes on disk. *)
Inductive event : Type :=
  | Rerun
  | WriteFile (content : option RawFrame).

(** The calls of [load_data] along a trace: for each, what it returned and
    the number of file reads so far. *)
Fixpoint run (tr : list event) (w : world) : list (option RawFrame * nat) * world :=
  match tr with
  | [] => ([], w)
  | Rerun :: tr' =>
      let (r, w1) := load_data w in
      let (rs, w2) := run tr' w1 in
      ((r, reads w1) :: rs, w2)
  | WriteFile c :: tr' =>
      run tr' {| gdp_csv := c; cache := cache w; reads := reads w |}
  end.

(** ** The aggregation pipeline (app.py, lines 86-98) *)

(** A row of the loaded frame: the three columns the pipeline reads, typed as
    the spec's Record has them (Country Name a string, Year an integer, GDP a
    number, NaN when missing), and the other columns of the row by label
    (Country Code, Region, ...).  The frame is indexed by [read_csv]'s
    RangeIndex, which has no duplicates, so aligning a computed column on the
    index is aligning it by position. *)
Record Row : Type := mkRow {
  Country_Name : string;
  Year : Z;
  GDP : float;
  rest : gmap string cell
}.

Abbreviation DataFrame := (list Row) (only parsing).

(** *** Filtering (lines 86-90) *)

(** [df["Year"] >= v] and [df["Year"] <= v]: boolean Series. *)
Definition series_ge (col : list Z) (v : Z) : list bool := map (fun y => (v <=? y)%Z) col.
Definition series_le (col : list Z) (v : Z) : list bool := map (fun y => (y <=? v)%Z) col.

(** [df["Country Name"].isin(values)] *)
Definition isin (col : list string) (values : list string) : list bool :=
  map (fun c => existsb (String.eqb c) values) col.

(** [a & b] on boolean Series of one frame. *)
Definition series_and (a b : list bool) : list bool := zip_with andb a b.

(** [df[mask]]: the rows whose mask entry is True, in their order. *)
Fixpoint getitem_mask (df : DataFrame) (mask : list bool) : DataFrame :=
  match df, mask with
  | r :: df', b :: mask' =>
      if b then r :: getitem_mask df' mask' else getitem_mask df' mask'
  | _, _ => []
  end.

Definition filtered_df (df : DataFrame) (year_range : Z * Z)
    (selected_countries : list string) : DataFrame :=
  getitem_mask df
    (series_and
       (series_and (series_ge (map Year df) (fst year_range))
                   (series_le (map Year df) (snd year_range)))
       (isin (map Country_Name df) selected_countries)).

(** The filter in the words of the spec: the rows whose Year is within
    [lo, hi] and whose Country Name is one of the selected, each as often as
    it is in the frame and in the order of the frame. *)
Definition kept (lo hi : Z) (selected : list string) (r : Row) : Prop :=
  (lo <= Year r)%Z /\ (Year r <= hi)%Z /\ Country_Name r ∈ selected.

Definition spec_filter (df : DataFrame) (lo hi : Z) (selected : list string)
  : DataFrame :=
  filter (fun r => (lo <= Year r)%Z /\ (Year r <= hi)%Z /\ Country_Name r ∈ selected) df.

(** *** Growth (lines 93-96) *)

(** The order of [sort_values(by=["Country Name", "Year"])]: Python's order on
    strings (by code point, which is the byte order of the UTF-8 encoding),
    then the order on integers. *)
Definition key_le (a b : Row) : bool :=
  match String.compare (Country_Name a) (Country_Name b) with
  | Lt => true
  | Eq => (Year a <=? Year b)%Z
  | Gt => false
  end.

(** A stable sort: a row goes in front of the first row that is not below
    it, so rows of equal key keep their order. *)
Fixpoint insert_row (r : Row) (l : DataFrame) : DataFrame :=
  match l with
  | [] => [r]
  | x :: l' => if key_le r x then r :: l else x :: insert_row r l'
  end.

Definition sort_values (df : DataFrame) : DataFrame := foldr insert_row [] df.

(** A frame in that order: no row is above a later one. *)
Definition sorted_by_key (df : DataFrame) : Prop :=
  StronglySorted (fun a b => key_le a b = true) df.

(** The default [fill_method] of [pct_change], which the script leaves to
    pandas: up to pandas 2 a missing value is first filled with the last
    value before it in its group ([Pad]); from pandas 3 nothing is filled. *)
Inductive fill_method : Type := Pad | NoFill.

(** The forward fill of one value, given the last filled value of its group. *)
Definition ffill (fill : fill_method) (prev : option float) (x : float) : float :=
  match fill with
  | Pad => if is_nan x then default nan prev else x
  | NoFill => x
  end.

(** [groupby(keys)[values].pct_change()], one pass over the frame: [last]
    holds, for each group met so far, its last filled value.  A row gets
    [filled / shifted - 1], where [shifted] is the filled value of the row
    before it in its group, NaN when there is none. *)
Fixpoint pct_change_from (fill : fill_method) (last : gmap string float)
    (keys : list string) (values : list float) : list float :=
  match keys, values with
  | k :: keys', x :: values' =>
      let filled := ffill fill (last !! k) x in
      let shifted := default nan (last !! k) in
      (filled / shifted - 1)%float
        :: pct_change_from fill (<[k := filled]> last) keys' values'
  | _, _ => []
  end.

Definition groupby_pct_change (fill : fill_method) (keys : list string)
    (values : list float) : list float :=
  pct_change_from fill ∅ keys values.

(** [series * 100] *)
Definition series_mul (col : list float) (k : float) : list float :=
  map (fun x => (x * k)%float) col.

(** [df[name] = col] for a float column that is none of the three typed
    ones: in each row the label gets its value, new or replaced. *)
Definition set_cell (name : string) (r : Row) (v : float) : Row :=
  {| Country_Name := Country_Name r; Year := Year r; GDP := GDP r;
     rest := <[name := Flt v]> (rest r) |}.

Definition setitem_float (df : DataFrame) (name : string) (col : list float)
  : DataFrame :=
  zip_with (set_cell name) df col.

(** The frame [calculate_gdp_growth(df)] returns, [fill] being the default
    of the installed pandas. *)
Definition calculate_gdp_growth (fill : fill_method) (df : DataFrame) : DataFrame :=
  let df_sorted := sort_values df in
  setitem_float df_sorted "GDP Growth %"
    (series_mul
       (groupby_pct_change fill (map Country_Name df_sorted) (map GDP df_sorted))
       100).

(** The forward fill of the values of one group, in frame order: what
    [pct_change] divides.  With [Pad] a missing value takes the last filled
    value before it (and stays missing when there is none); with [NoFill] the
    values are as they are.  [prev] is the last filled value so far. *)
Fixpoint ffill_series (fill : fill_method) (prev : option float)
    (values : list float) : list float :=
  match values with
  | [] => []
  | x :: values' =>
      let filled := ffill fill prev x in
      filled :: ffill_series fill (Some filled) values'
  end.

(** The assignment of line 95 on a sorted frame [d], with the pass over the
    groups started from the state [last] (the function starts it from the
    empty one). *)
Definition annotate (fill : fill_method) (name : string)
    (last : gmap string float) (d : DataFrame) : DataFrame :=
  setitem_float d name
    (series_mul (pct_change_from fill last (map Country_Name d) (map GDP d)) 100).

(** The growth cell of a row. *)
Definition growth (r : Row) : option cell := rest r !! "GDP Growth %".

(** The rows of one country, in the order of the frame: the group of
    [groupby("Country Name")] for that name. *)
Definition in_country (c : string) (r : Row) : bool := String.eqb (Country_Name r) c.

Definition group (c : string) (df : DataFrame) : DataFrame :=
  List.filter (in_country c) df.

(** *** Objects and mutation *)

(** The frames of the running script live in a heap; a variable holds the
    address of its frame.  Boolean indexing and [sort_values] build a new
    frame; an item assignment changes the frame it is applied to. *)
Abbreviation loc := nat (only parsing).
Abbreviation heap := (list (list Row)) (only parsing).

(** A statement: from a heap to a result and a heap, or an error (a dangling
    address). *)
Definition St (A : Type) : Type := heap -> option (A * heap).

Definition ret {A} (a : A) : St A := fun h => Some (a, h).

Definition bind {A B} (m : St A) (k : A -> St B) : St B :=
  fun h => match m h with
           | Some (a, h') => k a h'
           | None => None
           end.

Notation "'let*' x := m 'in' k" := (bind m (fun x => k))
  (at level 10, x name, m at level 200, k at level 200).

Definition deref (l : loc) : St DataFrame :=
  fun h => match h !! l with Some df => Some (df, h) | None => None end.

Definition alloc (df : DataFrame) : St loc :=
  fun h => Some (length h, (h ++ [df])%list).

Definition store (l : loc) (df : DataFrame) : St unit :=
  fun h => match h !! l with
           | Some _ => Some (tt, <[l := df]> h)
           | None => None
           end.

(** [df[mask]] on objects: a new frame. *)
Definition getitem_mask_st (l : loc) (mask : DataFrame -> list bool) : St loc :=
  let* df := deref l in alloc (getitem_mask df (mask df)).

(** [df.sort_values(by=...)] on objects: a new frame ([inplace] is False). *)
Definition sort_values_st (l : loc) : St loc :=
  let* df := deref l in alloc (sort_values df).

(** [df[name] = col] on objects: the frame at [l] is changed in place. *)
Definition setitem_float_st (l : loc) (name : string)
    (col : DataFrame -> list float) : St unit :=
  let* df := deref l in store l (setitem_float df name (col df)).

(** Lines 86-90. *)
Definition filtered_df_st (df : loc) (year_range : Z * Z)
    (selected_countries : list string) : St loc :=
  getitem_mask_st df (fun d =>
    series_and
      (series_and (series_ge (map Year d) (fst year_range))
                  (series_le (map Year d) (snd year_range)))
      (isin (map Country_Name d) selected_countries)).

(** Lines 93-96. *)
Definition calculate_gdp_growth_st (fill : fill_method) (df : loc) : St loc :=
  let* df_sorted := sort_values_st df in
  let* done := setitem_float_st df_sorted "GDP Growth %" (fun d =>
         series_mul
           (groupby_pct_change fill (map Country_Name d) (map GDP d)) 100) in
  ret df_sorted.

(** Lines 86-98: [filtered_df = calculate_gdp_growth(df[...])]. *)
Definition pipeline_st (fill : fill_method) (df : loc) (year_range : Z * Z)
    (selected_countries : list string) : St loc :=
  let* filtered := filtered_df_st df year_range selected_countries in
  calculate_gdp_growth_st fill filtered.

Definition pipeline (fill : fill_method) (df : DataFrame) (year_range : Z * Z)
    (selected_countries : list string) : DataFrame :=
  calculate_gdp_growth fill (filtered_df df year_range selected_countries).

(** The key of a row in the sort, and the row without its growth cell. *)
Definition key (r : Row) : string * Z := (Country_Name r, Year r).

Definition drop_growth (r : Row) : Row :=
  {| Country_Name := Country_Name r; Year := Year r; GDP := GDP r;
     rest := delete "GDP Growth %" (rest r) |}.

(** ** The sidebar (lines 50-54) *)

(** [Series.unique()]: the distinct values, in the order in which they first
    appear. *)
Fixpoint unique {A : Type} (eqb : A -> A -> bool) (l : list A) : list A :=
  match l with
  | [] => []
  | x :: l' => x :: List.filter (fun y => negb (eqb y x)) (unique eqb l')
  end.

(** Python's [sorted]: a stable sort into ascending order. *)
Fixpoint insert_by {A : Type} (leb : A -> A -> bool) (x : A) (l : list A) : list A :=
  match l with
  | [] => [x]
  | y :: l' => if leb x y then x :: l else y :: insert_by leb x l'
  end.

Definition sorted {A : Type} (leb : A -> A -> bool) (l : list A) : list A :=
  foldr (insert_by leb) [] l.

(** Line 50: [years = sorted(df["Year"].unique())]. *)
Definition years (df : DataFrame) : list Z :=
  sorted Z.leb (unique Z.eqb (map Year df)).

(** Line 53: [countries = sorted(df["Country Name"].unique())]. *)
Definition countries (df : DataFrame) : list string :=
  sorted String.leb (unique String.eqb (map Country_Name df)).

(** Python's [min] and [max] of a list; [None] is the ValueError they raise
    on an empty one. *)
Definition py_min (l : list Z) : option Z :=
  match l with
  | [] => None
  | x :: l' => Some (fold_left Z.min l' x)
  end.

Definition py_max (l : list Z) : option Z :=
  match l with
  | [] => None
  | x :: l' => Some (fold_left Z.max l' x)
  end.

(** ** The views (lines 63-85 and 130-199) *)

(** [df["Year"] == v]: a boolean Series. *)
Definition series_eq (col : list Z) (v : Z) : list bool := map (fun y => (y =? v)%Z) col.

(** [df["Year"].max()]; [None] is the NaN of an empty column. *)
Definition series_max (col : list Z) : option Z := py_max col.

(** Lines 67-68: [map_df = df[df["Year"] == latest_year]].  Nothing equals
    NaN, so the mask of an empty frame's NaN is all False. *)
Definition map_df (df : DataFrame) : DataFrame :=
  match series_max (map Year df) with
  | Some latest_year => getitem_mask df (series_eq (map Year df) latest_year)
  | None => getitem_mask df (map (fun _ => false) df)
  end.

(** Lines 132 and 168: [df[(df["Year"] == year_range[1]) & isin]]. *)
Definition year_df (df : DataFrame) (year_range : Z * Z)
    (selected_countries : list string) : DataFrame :=
  getitem_mask df
    (series_and (series_eq (map Year df) (snd year_range))
                (isin (map Country_Name df) selected_countries)).

(** [isna] of a cell: only NaN is missing. *)
Definition isna (c : cell) : bool :=
  match c with
  | Flt f => is_nan f
  | _ => false
  end.

(** The rows whose cell under [name] is not missing. *)
Definition notna_rows (name : string) (df : DataFrame) : DataFrame :=
  List.filter (fun r => match rest r !! name with
                        | Some c => negb (isna c)
                        | None => false
                        end) df.

(** [df.dropna(subset=[name])]: a new frame with those rows; [None] is the
    KeyError of a frame whose rows have no such column. *)
Definition dropna (df : DataFrame) (name : string) : option DataFrame :=
  if forallb (fun r => bool_decide (is_Some (rest r !! name))) df
  then Some (notna_rows name df)
  else None.

(** Line 151: [growth_df = filtered_df.dropna(subset=["GDP Growth %"])], on
    the frame of line 98. *)
Definition growth_df (fill : fill_method) (df : DataFrame) (year_range : Z * Z)
    (selected_countries : list string) : option DataFrame :=
  dropna (pipeline fill df year_range selected_countries) "GDP Growth %".

(** Lines 194-195: the growth over the whole loaded frame, then the rows of
    the upper year that have a growth. *)
Definition latest (fill : fill_method) (df : DataFrame) (year_range : Z * Z)
  : option DataFrame :=
  let growth := calculate_gdp_growth fill df in
  dropna (getitem_mask growth (series_eq (map Year growth) (snd year_range)))
         "GDP Growth %".

(** *** The first view and the flag (lines 63, 83 and 85) *)

Inductive view : Type := InitialView | Dashboard.

(** One run of the script from line 63 on, given whether the form was
    submitted: the snapshot is shown and the run stops there ([st.stop()])
    while the key is not in the session state and nothing was submitted;
    otherwise the key is set and the dashboard is shown. *)
Definition show (submit_button : bool) (session_state : gmap string bool)
  : view * gmap string bool :=
  if negb (bool_decide (is_Some (session_state !! "filters_applied")))
     && negb submit_button
  then (InitialView, session_state)
  else (Dashboard, <["filters_applied" := true]> session_state).

(** The views of a session: one run after the other, each with its own
    [submit_button], the session state carried along. *)
Fixpoint session (submits : list bool) (session_state : gmap string bool)
  : list view :=
  match submits with
  | [] => []
  | b :: submits' =>
      let (v, session_state') := show b session_state in
      v :: session submits' session_state'
  end.

(** ** Sample frames *)

(** One country, three consecutive years, GDP 100, 110 and 99 (rows not in
    year order). *)
Definition india_3 : DataFrame :=
  [ mkRow "India" 2002 99 ∅; mkRow "India" 2000 100 ∅; mkRow "India" 2001 110 ∅ ].

(** A country whose GDP is zero in one year. *)
Definition zero_then_5 : DataFrame :=
  [ mkRow "India" 2000 0 ∅; mkRow "India" 2001 5 ∅ ].

(** Two rows for one country and year. *)
Definition same_year : DataFrame :=
  [ mkRow "India" 2000 100 ∅; mkRow "India" 2000 200 ∅ ].

(** A frame that already has a growth column. *)
Definition with_growth : DataFrame :=
  [ mkRow "India" 2000 100 {[ "GDP Growth %" := Flt 5 ]} ].

(** Two countries over three years, rows in file order. *)
Definition two_countries : DataFrame :=
  [ mkRow "India" 2000 100 ∅; mkRow "China" 2000 200 ∅;
    mkRow "India" 2001 110 ∅; mkRow "China" 2001 220 ∅;
    mkRow "India" 2002 121 ∅; mkRow "China" 2002 231 ∅ ].

(** A GDP of 2^1023 followed by its opposite. *)
Definition opposite_huge : DataFrame :=
  [ mkRow "India" 2000 0x1p1023 ∅; mkRow "India" 2001 (-0x1p1023) ∅ ].

(** A country whose GDP of 2000 is missing. *)
Definition missing_2000 : DataFrame :=
  [ mkRow "India" 1999 100 ∅; mkRow "India" 2000 nan ∅; mkRow "India" 2001 120 ∅ ].

(** * Properties *)

(** ** binary64 arithmetic *)

Section Float64.
Local Open Scope float_scope.

Lemma float_of_spec (x : float) (v : spec_float) : Prim2SF x = v -> x = SF2Prim v.
Proof. intros <-. symmetry. apply SF2Prim_Prim2SF. Qed.

(** Dividing by NaN gives NaN. *)
Lemma div_nan_r (x : float) : x / nan = nan.
Proof.
  apply Prim2SF_inj. rewrite div_spec.
  change (Prim2SF nan) with S754_nan.
  unfold SF64div, SFdiv. destruct (Prim2SF x); reflexivity.
Qed.

(** A float that compares equal to zero is one of the two zeros. *)
Lemma is_zero_spec (z : float) :
  is_zero z = true -> exists s, Prim2SF z = S754_zero s.
Proof.
  unfold is_zero. rewrite FloatAxioms.eqb_spec.
  change (Prim2SF PrimFloat.zero) with (S754_zero false).
  unfold SFeqb, SFcompare.
  destruct (Prim2SF z) as [s| s| |s m e]; try discriminate.
  - eauto.
  - destruct s; discriminate.
  - destruct s; discriminate.
Qed.

(** Dividing by a zero gives an infinity or NaN, whatever is divided. *)
Lemma div_zero (x z : float) :
  is_zero z = true -> x / z = infinity \/ x / z = neg_infinity \/ x / z = nan.
Proof.
  intros H. destruct (is_zero_spec z H) as [s Hz].
  pose proof (div_spec x z) as D. rewrite Hz in D.
  unfold SF64div, SFdiv in D.
  destruct (Prim2SF x) as [sx| sx| |sx m e]; apply float_of_spec in D; rewrite D;
    try destruct sx; destruct s; vm_compute; auto.
Qed.

Lemma growth_of_zero (x z : float) :
  is_zero z = true ->
  let g := (x / z - 1) * 100 in is_nan g || is_infinity g = true.
Proof.
  intros H. destruct (div_zero x z H) as [-> | [-> | ->]]; reflexivity.
Qed.

Lemma is_zero_not_nan (z : float) : is_zero z = true -> is_nan z = false.
Proof.
  intros H. destruct (is_zero_spec z H) as [s Hz].
  unfold is_nan. rewrite FloatAxioms.eqb_spec, Hz. reflexivity.
Qed.

Lemma ffill_not_nan fill prev (x : float) : is_nan x = false -> ffill fill prev x = x.
Proof. intros H. destruct fill; simpl; [rewrite H|]; reflexivity. Qed.

End Float64.

(** ** The order of the sort *)

Lemma ascii_compare_refl (a : ascii) : Ascii.compare a a = Eq.
Proof. unfold Ascii.compare. apply N.compare_refl. Qed.

Lemma ascii_compare_trans (a b c : ascii) :
  Ascii.compare a b = Lt -> Ascii.compare b c = Lt -> Ascii.compare a c = Lt.
Proof.
  unfold Ascii.compare. rewrite !N.compare_lt_iff. apply N.lt_trans.
Qed.

Lemma string_compare_refl (s : string) : String.compare s s = Eq.
Proof.
  induction s as [|a s IH]; simpl; [reflexivity|].
  now rewrite ascii_compare_refl.
Qed.

Lemma string_compare_trans (s1 s2 s3 : string) :
  String.compare s1 s2 = Lt -> String.compare s2 s3 = Lt ->
  String.compare s1 s3 = Lt.
Proof.
  revert s2 s3. induction s1 as [|a s1 IH]; intros [|b s2] [|c s3]; simpl;
    try discriminate; try reflexivity.
  destruct (Ascii.compare a b) eqn:Hab; try discriminate;
    destruct (Ascii.compare b c) eqn:Hbc; try discriminate; intros H1 H2.
  - apply Ascii.compare_eq_iff in Hab, Hbc. subst.
    rewrite ascii_compare_refl. eauto.
  - apply Ascii.compare_eq_iff in Hab. subst. now rewrite Hbc.
  - apply Ascii.compare_eq_iff in Hbc. subst. now rewrite Hab.
  - now rewrite (ascii_compare_trans a b c).
Qed.

Lemma string_compare_gt_lt (s1 s2 : string) :
  String.compare s1 s2 = Gt -> String.compare s2 s1 = Lt.
Proof.
  intros H. rewrite String.compare_antisym, H. reflexivity.
Qed.

Lemma key_le_total (a b : Row) : key_le a b = false -> key_le b a = true.
Proof.
  unfold key_le.
  rewrite (String.compare_antisym (Country_Name b) (Country_Name a)).
  destruct (String.compare (Country_Name a) (Country_Name b)); simpl;
    try discriminate; try reflexivity.
  intros H. apply Z.leb_gt in H. apply Z.leb_le. lia.
Qed.

Lemma key_le_trans (a b c : Row) :
  key_le a b = true -> key_le b c = true -> key_le a c = true.
Proof.
  unfold key_le.
  destruct (String.compare (Country_Name a) (Country_Name b)) eqn:Hab;
    try discriminate;
    destruct (String.compare (Country_Name b) (Country_Name c)) eqn:Hbc;
    try discriminate; intros H1 H2.
  - apply String.compare_eq_iff in Hab, Hbc. rewrite Hab, Hbc.
    rewrite string_compare_refl. apply Z.leb_le. apply Z.leb_le in H1, H2. lia.
  - apply String.compare_eq_iff in Hab. rewrite Hab, Hbc. reflexivity.
  - apply String.compare_eq_iff in Hbc. rewrite <- Hbc, Hab. reflexivity.
  - now rewrite (string_compare_trans _ _ _ Hab Hbc).
Qed.

Lemma key_le_antisym (a b : Row) :
  key_le a b = true -> key_le b a = true ->
  Country_Name a = Country_Name b /\ Year a = Year b.
Proof.
  unfold key_le.
  rewrite (String.compare_antisym (Country_Name b) (Country_Name a)).
  destruct (String.compare (Country_Name a) (Country_Name b)) eqn:Hab; simpl;
    try discriminate.
  intros H1 H2. apply String.compare_eq_iff in Hab.
  apply Z.leb_le in H1, H2. split; [congruence | lia].
Qed.

Lemma key_le_same_name (a b : Row) :
  Country_Name a = Country_Name b -> key_le a b = (Year a <=? Year b)%Z.
Proof.
  intros H. unfold key_le. rewrite H, string_compare_refl. reflexivity.
Qed.

(** ** Sorting *)

Lemma insert_row_perm (r : Row) (l : DataFrame) :
  Permutation (insert_row r l) (r :: l).
Proof.
  induction l as [|x l IH]; simpl; [reflexivity|].
  destruct (key_le r x); [reflexivity|].
  rewrite IH. apply perm_swap.
Qed.

Lemma sort_values_perm (df : DataFrame) : Permutation (sort_values df) df.
Proof.
  induction df as [|r df IH]; simpl; [reflexivity|].
  rewrite insert_row_perm. now constructor.
Qed.

Lemma sort_values_length (df : DataFrame) : length (sort_values df) = length df.
Proof. apply Permutation_length, sort_values_perm. Qed.

Lemma insert_row_sorted (r : Row) (l : DataFrame) :
  sorted_by_key l -> sorted_by_key (insert_row r l).
Proof.
  induction 1 as [|x l Hl IH Hx]; simpl.
  - repeat constructor.
  - destruct (key_le r x) eqn:Hrx.
    + constructor; [now constructor|].
      constructor; [exact Hrx|].
      eapply List.Forall_impl; [|exact Hx].
      intros y Hy. apply (key_le_trans r x y); [exact Hrx | exact Hy].
    + constructor; [exact IH|].
      apply List.Forall_forall. intros y Hy.
      apply (Permutation_in _ (insert_row_perm r l)) in Hy.
      destruct Hy as [<- | Hy]; [apply (key_le_total r x Hrx)|].
      apply (proj1 (List.Forall_forall _ _) Hx y Hy).
Qed.

Lemma sort_values_sorted (df : DataFrame) : sorted_by_key (sort_values df).
Proof.
  induction df as [|r df IH]; simpl; [constructor|].
  now apply insert_row_sorted.
Qed.

(** A row that is below every row of a frame goes in front of it. *)
Lemma insert_row_front (r : Row) (l : DataFrame) :
  Forall (fun y => key_le r y = true) l -> insert_row r l = r :: l.
Proof.
  destruct 1 as [|x l Hx _]; simpl; [reflexivity|].
  rewrite Hx. reflexivity.
Qed.

(** Sorting commutes with selecting rows: the sort is stable. *)
Lemma filter_insert_row (P : Row -> bool) (r : Row) (l : DataFrame) :
  sorted_by_key l ->
  List.filter P (insert_row r l)
  = if P r then insert_row r (List.filter P l) else List.filter P l.
Proof.
  induction 1 as [|x l Hl IH Hx]; simpl.
  - destruct (P r); reflexivity.
  - destruct (key_le r x) eqn:Hrx; simpl.
    + destruct (P r) eqn:Hr; [|reflexivity].
      symmetry. apply insert_row_front.
      assert (Hall : Forall (fun y => key_le r y = true) (x :: l)).
      { constructor; [exact Hrx|].
        eapply List.Forall_impl; [|exact Hx].
        intros y Hy. apply (key_le_trans r x y); auto. }
      apply List.Forall_forall. intros y Hy.
      apply (proj1 (List.Forall_forall _ _) Hall).
      change (In y (List.filter P (x :: l))) in Hy.
      apply List.filter_In in Hy. tauto.
    + rewrite IH. destruct (P x), (P r); simpl; try rewrite Hrx; reflexivity.
Qed.

Lemma filter_sort_values (P : Row -> bool) (df : DataFrame) :
  List.filter P (sort_values df) = sort_values (List.filter P df).
Proof.
  induction df as [|r df IH]; simpl; [reflexivity|].
  rewrite filter_insert_row by apply sort_values_sorted.
  rewrite IH. destruct (P r); reflexivity.
Qed.

(** ** The growth column *)

Lemma pct_change_from_length fill last (keys : list string) (values : list float) :
  length keys = length values ->
  length (pct_change_from fill last keys values) = length keys.
Proof.
  revert last values. induction keys as [|k keys IH]; intros last [|x values];
    simpl; try discriminate; auto.
Qed.

Lemma growth_column_length fill last (d : DataFrame) :
  length (series_mul (pct_change_from fill last (map Country_Name d) (map GDP d)) 100)
  = length d.
Proof.
  unfold series_mul. rewrite length_map, pct_change_from_length;
    rewrite !length_map; reflexivity.
Qed.

Lemma setitem_float_length (d : DataFrame) name (col : list float) :
  length col = length d -> length (setitem_float d name col) = length d.
Proof.
  unfold setitem_float. revert col.
  induction d as [|r d IH]; intros [|v col]; simpl; try discriminate; auto.
Qed.

Lemma in_country_set_cell (c name : string) (r : Row) (v : float) :
  in_country c (set_cell name r v) = in_country c r.
Proof. reflexivity. Qed.

(** The growth of a country's rows is computed from that country's rows
    alone: the pass over the whole frame and the pass over the group give the
    group the same column, as long as they start from the same last value for
    the country. *)
Lemma growth_column_group fill name (c : string) (d : DataFrame) :
  forall last last' : gmap string float,
  last !! c = last' !! c ->
  group c (setitem_float d name
             (series_mul (pct_change_from fill last (map Country_Name d) (map GDP d)) 100))
  = setitem_float (group c d) name
      (series_mul
         (pct_change_from fill last' (map Country_Name (group c d)) (map GDP (group c d)))
         100).
Proof.
  unfold group, setitem_float, series_mul.
  induction d as [|r d IH]; intros last last' Hc; simpl; [reflexivity|].
  rewrite in_country_set_cell.
  destruct (in_country c r) eqn:E; unfold in_country in E; simpl.
  - apply String.eqb_eq in E. rewrite E, <- Hc. f_equal.
    apply IH. now rewrite !lookup_insert_eq.
  - apply String.eqb_neq in E. apply IH. now rewrite lookup_insert_ne.
Qed.

Lemma group_calculate_gdp_growth fill (c : string) (df : DataFrame) :
  group c (calculate_gdp_growth fill df) = calculate_gdp_growth fill (group c df).
Proof.
  unfold calculate_gdp_growth, groupby_pct_change.
  rewrite (growth_column_group fill _ c (sort_values df) ∅ ∅ eq_refl).
  unfold group. now rewrite filter_sort_values.
Qed.

Lemma group_names (c : string) (df : DataFrame) :
  Forall (fun r => Country_Name r = c) (group c df).
Proof.
  apply List.Forall_forall. intros r Hr. apply List.filter_In in Hr.
  destruct Hr as [_ Hr]. now apply String.eqb_eq in Hr.
Qed.

Lemma sort_values_names (c : string) (d : DataFrame) :
  Forall (fun r => Country_Name r = c) d ->
  Forall (fun r => Country_Name r = c) (sort_values d).
Proof.
  intros H. apply List.Forall_forall. intros r Hr.
  apply (Permutation_in _ (sort_values_perm d)) in Hr.
  apply (proj1 (List.Forall_forall _ _) H r Hr).
Qed.

Section OneCountry.
Local Open Scope float_scope.
Variables (fill : fill_method) (name c : string).

(** The first row of a country that has no row before it. *)
Lemma one_country_first (last : gmap string float) (d : DataFrame) (r : Row) :
  Forall (fun r => Country_Name r = c) d ->
  last !! c = None ->
  annotate fill name last d !! 0%nat = Some r ->
  rest r !! name = Some (Flt nan).
Proof.
  destruct 1 as [|x d Hx Hd]; intros Hl; unfold annotate; simpl; [discriminate|].
  intros [= <-]. simpl. rewrite lookup_insert_eq, Hx, Hl. simpl.
  rewrite div_nan_r. reflexivity.
Qed.

(** Two rows of a country that follow each other. *)
Lemma one_country_step (d : DataFrame) :
  Forall (fun r => Country_Name r = c) d ->
  forall (last : gmap string float) (i : nat) (r0 r1 : Row),
  annotate fill name last d !! i = Some r0 ->
  annotate fill name last d !! S i = Some r1 ->
  is_nan (GDP r0) = false ->
  rest r1 !! name
  = Some (Flt ((ffill fill (Some (GDP r0)) (GDP r1) / GDP r0 - 1) * 100)).
Proof.
  induction 1 as [|x d Hx Hd IH]; intros last i r0 r1; unfold annotate; simpl;
    [discriminate|].
  destruct i as [|i]; simpl.
  - intros [= <-]. simpl. intros H1 Hnan.
    rewrite (ffill_not_nan _ _ _ Hnan) in H1.
    destruct Hd as [|y d Hy Hd]; simpl in H1; [discriminate|].
    injection H1 as <-. simpl.
    rewrite lookup_insert_eq, Hy, Hx, lookup_insert_eq. reflexivity.
  - apply IH.
Qed.

(** A row of a country after its first: its growth is computed from the
    forward-filled values of the row and of the row before it. *)
Lemma one_country_filled (d : DataFrame) :
  Forall (fun r => Country_Name r = c) d ->
  forall (last : gmap string float) (i : nat) (r1 : Row),
  annotate fill name last d !! S i = Some r1 ->
  exists f0 f1,
    ffill_series fill (last !! c) (map GDP d) !! i = Some f0 /\
    ffill_series fill (last !! c) (map GDP d) !! S i = Some f1 /\
    rest r1 !! name = Some (Flt ((f1 / f0 - 1) * 100)).
Proof.
  induction 1 as [|x d Hx Hd IH]; intros last i r1; unfold annotate; simpl;
    [discriminate|].
  rewrite Hx. destruct i as [|i].
  - destruct Hd as [|y d Hy Hd]; simpl; [discriminate|].
    intros [= <-]. simpl.
    rewrite Hy, !lookup_insert_eq. simpl. eauto.
  - intros H1.
    destruct (IH (<[c := ffill fill (last !! c) (GDP x)]> last) i r1) as
      (f0 & f1 & H0 & H1' & Hg).
    { exact H1. }
    rewrite lookup_insert_eq in H0, H1'.
    exists f0, f1. auto.
Qed.

End OneCountry.

Lemma ffill_series_NoFill (prev : option float) (values : list float) :
  ffill_series NoFill prev values = values.
Proof.
  revert prev. induction values as [|x values IH]; intros prev; simpl;
    [reflexivity|]. now rewrite IH.
Qed.

(** A value that is there is not filled. *)
Lemma ffill_series_lookup (fill : fill_method) (values : list float) :
  forall (prev : option float) (i : nat) (x : float),
  values !! i = Some x -> is_nan x = false ->
  ffill_series fill prev values !! i = Some x.
Proof.
  induction values as [|y values IH]; intros prev i x; [discriminate|].
  destruct i as [|i]; simpl.
  - intros [= ->] Hx. now rewrite ffill_not_nan.
  - apply IH.
Qed.

Lemma annotate_GDP (fill : fill_method) name (last : gmap string float)
    (d : DataFrame) :
  map GDP (annotate fill name last d) = map GDP d.
Proof.
  unfold annotate, setitem_float, series_mul.
  revert last. induction d as [|x d IH]; intros last; simpl; [reflexivity|].
  f_equal. apply IH.
Qed.

(** ** The output of [calculate_gdp_growth] *)

Lemma key_le_set_cell name (a b : Row) (v w : float) :
  key_le (set_cell name a v) (set_cell name b w) = key_le a b.
Proof. reflexivity. Qed.

Lemma setitem_float_sorted name (d : DataFrame) :
  sorted_by_key d -> forall col, sorted_by_key (setitem_float d name col).
Proof.
  unfold setitem_float.
  induction 1 as [|x d Hd IH Hx]; intros [|v col]; simpl; try constructor.
  - apply IH.
  - clear IH Hd. revert col.
    induction Hx as [|y d Hy Hx IH]; intros [|w col]; simpl; constructor; auto.
Qed.

Lemma calculate_gdp_growth_sorted fill (df : DataFrame) :
  sorted_by_key (calculate_gdp_growth fill df).
Proof. apply setitem_float_sorted, sort_values_sorted. Qed.

Lemma sorted_by_key_adjacent (l : DataFrame) :
  sorted_by_key l ->
  forall (i : nat) (a b : Row),
  l !! i = Some a -> l !! S i = Some b -> key_le a b = true.
Proof.
  induction 1 as [|x l Hl IH Hx]; intros i a b; [discriminate|].
  destruct i as [|i]; simpl.
  - intros [= <-] Hb. destruct Hx as [|y l Hy _]; [discriminate|].
    simpl in Hb. now injection Hb as <-.
  - apply IH.
Qed.

Lemma calculate_gdp_growth_length fill (df : DataFrame) :
  length (calculate_gdp_growth fill df) = length df.
Proof.
  unfold calculate_gdp_growth, groupby_pct_change.
  rewrite setitem_float_length; [apply sort_values_length|].
  apply growth_column_length.
Qed.

(** The growth cells of the sample, in binary64. *)
Lemma india_3_growth (fill : fill_method) :
  map growth (calculate_gdp_growth fill india_3)
  = [ Some (Flt nan); Some (Flt 0x1.4000000000005p+3);
      Some (Flt (-0x1.3ffffffffffffp+3)) ].
Proof. destruct fill; vm_compute; reflexivity. Qed.

Section Growth.
Local Open Scope float_scope.

(** C1, as the code has it.  [calculate_gdp_growth] returns the rows in
    (Country Name, Year) order.  The rows of a country in it are the output
    of the function on that country's rows alone, so no other country
    contributes; they are in year order; the first has a NaN growth; and a
    row after the first has the growth (F[i] / F[i-1] - 1) * 100, computed in
    binary64, where F is the country's GDP column forward-filled as
    [pct_change] does by default.  F is the GDP itself at a row whose GDP is
    there, and at every row when nothing is filled.  For one country with
    GDP 100, 110, 99 the growths are NaN and two values within 2^-46 of 10
    and of -10. *)
Theorem calculate_gdp_growth_per_country (fill : fill_method) (df : DataFrame) :
  let out := calculate_gdp_growth fill df in
  sorted_by_key out /\
  (forall c : string,
     let rows := group c out in
     let filled := ffill_series fill None (map GDP rows) in
     rows = calculate_gdp_growth fill (group c df) /\
     (forall r, rows !! 0%nat = Some r -> growth r = Some (Flt nan)) /\
     (forall i r0 r1, rows !! i = Some r0 -> rows !! S i = Some r1 ->
        (Year r0 <= Year r1)%Z /\
        (exists f0 f1,
           filled !! i = Some f0 /\ filled !! S i = Some f1 /\
           growth r1 = Some (Flt ((f1 / f0 - 1) * 100))) /\
        (is_nan (GDP r0) = false -> is_nan (GDP r1) = false ->
         growth r1 = Some (Flt ((GDP r1 / GDP r0 - 1) * 100))) /\
        (fill = NoFill ->
         growth r1 = Some (Flt ((GDP r1 / GDP r0 - 1) * 100))))) /\
  (exists g1 g2,
     map growth (calculate_gdp_growth fill india_3)
     = [Some (Flt nan); Some (Flt g1); Some (Flt g2)] /\
     (abs (g1 - 10) <? 0x1p-46) = true /\ (abs (g2 + 10) <? 0x1p-46) = true).
Proof.
  intros out. split; [apply calculate_gdp_growth_sorted|]. split.
  - intros c rows filled.
    assert (E : rows = calculate_gdp_growth fill (group c df))
      by apply group_calculate_gdp_growth.
    pose proof (sort_values_names c _ (group_names c df)) as Hn.
    split; [exact E|]. unfold filled. clear filled. rewrite E. split.
    + intros r Hr. unfold growth.
      apply (one_country_first fill _ c ∅ _ r Hn); [apply lookup_empty | exact Hr].
    + intros i r0 r1 H0 H1.
      assert (Hle : (Year r0 <= Year r1)%Z).
      { pose proof (sorted_by_key_adjacent _
                      (calculate_gdp_growth_sorted fill (group c df)) i r0 r1 H0 H1)
          as Hle.
        assert (Hc : Country_Name r0 = Country_Name r1).
        { pose proof (group_names c out) as Hg. fold rows in Hg. rewrite E in Hg.
          rewrite List.Forall_forall in Hg.
          rewrite (Hg r0), (Hg r1); auto;
            apply list_elem_of_In; eapply list_elem_of_lookup_2; eauto. }
        rewrite (key_le_same_name _ _ Hc) in Hle. now apply Z.leb_le. }
      assert (G0 : map GDP (calculate_gdp_growth fill (group c df)) !! i
                   = Some (GDP r0)) by (rewrite list_lookup_fmap, H0; reflexivity).
      assert (G1 : map GDP (calculate_gdp_growth fill (group c df)) !! S i
                   = Some (GDP r1)) by (rewrite list_lookup_fmap, H1; reflexivity).
      destruct (one_country_filled fill "GDP Growth %" c _ Hn ∅ i r1 H1)
        as (f0 & f1 & F0 & F1 & Hg).
      rewrite lookup_empty in F0, F1.
      change (calculate_gdp_growth fill (group c df))
        with (annotate fill "GDP Growth %" ∅ (sort_values (group c df))) in G0, G1 |- *.
      rewrite annotate_GDP in G0, G1 |- *.
      split; [exact Hle|]. split; [exists f0, f1; auto|]. split.
      * intros N0 N1.
        rewrite (ffill_series_lookup fill _ None i _ G0 N0) in F0.
        rewrite (ffill_series_lookup fill _ None (S i) _ G1 N1) in F1.
        unfold growth. rewrite Hg. congruence.
      * intros ->. rewrite ffill_series_NoFill in F0, F1.
        unfold growth. rewrite Hg. congruence.
  - exists 0x1.4000000000005p+3, (-0x1.3ffffffffffffp+3).
    split; [apply india_3_growth|]. split; reflexivity.
Qed.

(** The theorem at the sample: the growth of India's 2001 row. *)
Lemma calculate_gdp_growth_per_country_witness :
  let r0 := set_cell "GDP Growth %" (mkRow "India" 2000 100 ∅) nan in
  let r1 := set_cell "GDP Growth %" (mkRow "India" 2001 110 ∅) 0x1.4000000000005p+3 in
  group "India" (calculate_gdp_growth Pad india_3) !! 0%nat = Some r0 /\
  group "India" (calculate_gdp_growth Pad india_3) !! 1%nat = Some r1 /\
  is_nan (GDP r0) = false /\ is_nan (GDP r1) = false /\
  growth r1 = Some (Flt ((110 / 100 - 1) * 100)).
Proof.
  intros r0 r1.
  assert (H0 : group "India" (calculate_gdp_growth Pad india_3) !! 0%nat = Some r0)
    by (vm_compute; reflexivity).
  assert (H1 : group "India" (calculate_gdp_growth Pad india_3) !! 1%nat = Some r1)
    by (vm_compute; reflexivity).
  refine (conj H0 (conj H1 (conj eq_refl (conj eq_refl _)))).
  destruct (calculate_gdp_growth_per_country Pad india_3) as (_ & H & _).
  destruct (H "India") as (_ & _ & Hstep).
  exact (proj1 (proj2 (proj2 (Hstep 0%nat r0 r1 H0 H1))) eq_refl eq_refl).
Defined.

(** Two frames at which the growth is not the value of
    (GDP[i] - GDP[i-1]) / GDP[i-1] * 100, and not by rounding.  With a GDP of
    2^1023 followed by -2^1023 the difference overflows: the formula gives
    minus infinity, the code -200, whatever is filled.  With a GDP of 100,
    a missing one and 120, the formula gives NaN for both later years; with
    the forward fill the code gives 0 and 19.999999999999996. *)
Lemma calculate_gdp_growth_formula_diverges :
  ((-0x1p1023 - 0x1p1023) / 0x1p1023 * 100 = neg_infinity /\
   map growth (calculate_gdp_growth Pad opposite_huge)
   = [Some (Flt nan); Some (Flt (-200))] /\
   map growth (calculate_gdp_growth NoFill opposite_huge)
   = [Some (Flt nan); Some (Flt (-200))] /\
   map growth (calculate_gdp_growth Pad opposite_huge)
   <> [Some (Flt nan); Some (Flt ((-0x1p1023 - 0x1p1023) / 0x1p1023 * 100))] /\
   map growth (calculate_gdp_growth NoFill opposite_huge)
   <> [Some (Flt nan); Some (Flt ((-0x1p1023 - 0x1p1023) / 0x1p1023 * 100))]) /\
  ((nan - 100) / 100 * 100 = nan /\ (120 - nan) / nan * 100 = nan /\
   map growth (calculate_gdp_growth Pad missing_2000)
   = [Some (Flt nan); Some (Flt 0); Some (Flt 0x1.3ffffffffffffp+4)] /\
   map growth (calculate_gdp_growth Pad missing_2000)
   <> [Some (Flt nan); Some (Flt ((nan - 100) / 100 * 100));
       Some (Flt ((120 - nan) / nan * 100))]).
Proof.
  split; [split; [reflexivity|]; split; [vm_compute; reflexivity|];
          split; [vm_compute; reflexivity|]; split
         |split; [reflexivity|]; split; [reflexivity|];
          split; [vm_compute; reflexivity|]];
    intros H;
    apply (f_equal (fun l => match l with
                             | _ :: Some (Flt x) :: _ => is_finite x
                             | _ => false
                             end)) in H;
    vm_compute in H; discriminate.
Qed.

(** C7.  A row after a row of the same country whose GDP is zero gets a
    growth that is an infinity or NaN: it is the result of the division by
    zero itself, (GDP / 0 - 1) * 100 in binary64, stored in the column like
    any other value.  The function has no error case. *)
Theorem calculate_gdp_growth_zero_previous (fill : fill_method) (df : DataFrame)
    (c : string) (i : nat) (r0 r1 : Row) :
  group c (calculate_gdp_growth fill df) !! i = Some r0 ->
  group c (calculate_gdp_growth fill df) !! S i = Some r1 ->
  is_zero (GDP r0) = true ->
  exists g,
    growth r1 = Some (Flt g) /\
    g = (ffill fill (Some (GDP r0)) (GDP r1) / GDP r0 - 1) * 100 /\
    is_nan g || is_infinity g = true.
Proof.
  rewrite group_calculate_gdp_growth. intros H0 H1 Hz.
  pose proof (sort_values_names c _ (group_names c df)) as Hn.
  eexists. split; [|split; [reflexivity|]].
  - unfold growth.
    apply (one_country_step fill _ c _ Hn ∅ i r0 r1 H0 H1 (is_zero_not_nan _ Hz)).
  - apply growth_of_zero, Hz.
Qed.

Lemma calculate_gdp_growth_zero_previous_witness :
  let r0 := set_cell "GDP Growth %" (mkRow "India" 2000 0 ∅) nan in
  let r1 := set_cell "GDP Growth %" (mkRow "India" 2001 5 ∅) infinity in
  is_zero (GDP r0) = true /\
  exists g, growth r1 = Some (Flt g) /\ is_nan g || is_infinity g = true.
Proof.
  intros r0 r1. split; [reflexivity|].
  destruct (calculate_gdp_growth_zero_previous Pad zero_then_5 "India" 0 r0 r1
              eq_refl eq_refl eq_refl) as (g & Hg & _ & Hinf).
  exists g. split; assumption.
Defined.

End Growth.

(** ** Row order of the input *)

(** Two sorted frames with the same rows and no key twice are one frame. *)
Lemma sorted_by_key_unique (l l' : DataFrame) :
  sorted_by_key l -> sorted_by_key l' -> Permutation l l' ->
  List.NoDup (map key l) -> l = l'.
Proof.
  intros Hl. revert l'. induction Hl as [|a l Hl IH Ha]; intros l' Hl' Hp Hnd.
  - now apply Permutation_nil in Hp.
  - destruct Hl' as [|b l' Hl' Hb].
    { symmetry in Hp. now apply Permutation_nil in Hp. }
    apply List.NoDup_cons_iff in Hnd. destruct Hnd as [Hna Hnd].
    assert (E : a = b).
    { assert (Ia : In a (b :: l')) by (apply (Permutation_in _ Hp); now left).
      assert (Ib : In b (a :: l))
        by (apply (Permutation_in _ (Permutation_sym Hp)); now left).
      destruct Ia as [Ia | Ia]; [now symmetry|].
      destruct Ib as [Ib | Ib]; [exact Ib|].
      exfalso. apply Hna.
      rewrite List.Forall_forall in Ha, Hb.
      destruct (key_le_antisym a b (Ha _ Ib) (Hb _ Ia)) as [En Ey].
      replace (key a) with (key b) by (unfold key; now rewrite En, Ey).
      now apply in_map. }
    subst b. f_equal. apply IH; auto.
    now apply Permutation_cons_inv in Hp.
Qed.

(** C3, as the code has it.  On a frame with one row per country and year
    the output does not depend on the order of the input rows: the function
    sorts whatever it is given. *)
Theorem calculate_gdp_growth_row_order (fill : fill_method) (df df' : DataFrame) :
  Permutation df df' ->
  List.NoDup (map key df) ->
  calculate_gdp_growth fill df' = calculate_gdp_growth fill df.
Proof.
  intros Hp Hnd.
  assert (E : sort_values df' = sort_values df).
  { symmetry. apply sorted_by_key_unique; try apply sort_values_sorted.
    - now rewrite !sort_values_perm.
    - apply (Permutation_NoDup (l := map key df)); [|exact Hnd].
      apply Permutation_map. symmetry. apply sort_values_perm. }
  unfold calculate_gdp_growth. now rewrite E.
Qed.

Lemma calculate_gdp_growth_row_order_witness :
  Permutation india_3 (rev india_3) /\ List.NoDup (map key india_3) /\
  calculate_gdp_growth Pad (rev india_3) = calculate_gdp_growth Pad india_3.
Proof.
  assert (Hp : Permutation india_3 (rev india_3)) by apply Permutation_rev.
  assert (Hnd : List.NoDup (map key india_3)).
  { unfold india_3, key. simpl.
    repeat (constructor; [simpl; intuition discriminate|]). constructor. }
  exact (conj Hp (conj Hnd (calculate_gdp_growth_row_order Pad _ _ Hp Hnd))).
Defined.

(** With two rows for one country and year the output depends on which
    comes first, also when the outputs are compared as bags of rows. *)
Lemma calculate_gdp_growth_row_order_counterexample :
  Permutation same_year (rev same_year) /\
  ~ Permutation (calculate_gdp_growth Pad (rev same_year))
                (calculate_gdp_growth Pad same_year) /\
  ~ Permutation (calculate_gdp_growth NoFill (rev same_year))
                (calculate_gdp_growth NoFill same_year).
Proof.
  split; [apply Permutation_rev|].
  split; intros H;
    apply (Permutation_in
             (set_cell "GDP Growth %" (mkRow "India" 2000 200 ∅) nan)) in H;
    try (vm_compute; now left);
    vm_compute in H; destruct H as [H | [H | []]];
    [ apply (f_equal (fun r => (GDP r =? 200)%float)) in H
    | apply (f_equal (fun r => match growth r with
                               | Some (Flt g) => is_nan g
                               | _ => false
                               end)) in H
    | apply (f_equal (fun r => (GDP r =? 200)%float)) in H
    | apply (f_equal (fun r => match growth r with
                               | Some (Flt g) => is_nan g
                               | _ => false
                               end)) in H ];
    vm_compute in H; discriminate.
Qed.

(** ** What the growth function leaves as it is *)

Lemma drop_growth_set_cell (r : Row) (v : float) :
  drop_growth (set_cell "GDP Growth %" r v) = drop_growth r.
Proof.
  unfold drop_growth, set_cell. simpl. now rewrite delete_insert_eq.
Qed.

Lemma drop_growth_id (r : Row) : growth r = None -> drop_growth r = r.
Proof.
  unfold growth, drop_growth. intros H. destruct r as [n y g m]. simpl in *.
  now rewrite delete_id.
Qed.

Lemma drop_growth_setitem_float (d : DataFrame) (col : list float) :
  length col = length d ->
  map drop_growth (setitem_float d "GDP Growth %" col) = map drop_growth d.
Proof.
  unfold setitem_float. revert col.
  induction d as [|r d IH]; intros [|v col]; simpl; try discriminate; auto.
  intros [= H]. now rewrite drop_growth_set_cell, IH.
Qed.

Lemma setitem_float_cell name (d : DataFrame) (col : list float) (r : Row) :
  In r (setitem_float d name col) ->
  exists r' v, In r' d /\ r = set_cell name r' v.
Proof.
  unfold setitem_float. revert col.
  induction d as [|x d IH]; intros [|v col]; simpl; try contradiction.
  intros [<- | H]; [exists x, v; auto|].
  destruct (IH _ H) as (r' & w & Hr' & E). exists r', w. auto.
Qed.

(** C10, as the code has it.  The output has as many rows as the input.
    Apart from the cell "GDP Growth %" its rows are the rows of the input, in
    another order: Country Name, Year, GDP and every other column are as they
    were.  Every output row has a float in "GDP Growth %" and no other label
    is new.  On an input without that column the rows with the cell removed
    are the input rows themselves. *)
Theorem calculate_gdp_growth_frame (fill : fill_method) (df : DataFrame) :
  let out := calculate_gdp_growth fill df in
  length out = length df /\
  Permutation (map drop_growth out) (map drop_growth df) /\
  (forall r, In r out ->
     (exists g, growth r = Some (Flt g)) /\
     dom (rest r) = {[ "GDP Growth %" ]} ∪ dom (rest (drop_growth r))) /\
  ((forall r, In r df -> growth r = None) ->
   Permutation (map drop_growth out) df).
Proof.
  intros out.
  assert (Hp : Permutation (map drop_growth out) (map drop_growth df)).
  { unfold out, calculate_gdp_growth, groupby_pct_change.
    rewrite drop_growth_setitem_float by apply growth_column_length.
    apply Permutation_map, sort_values_perm. }
  split; [apply calculate_gdp_growth_length|]. split; [exact Hp|]. split.
  - intros r Hr. apply setitem_float_cell in Hr.
    destruct Hr as (r' & v & _ & ->). split.
    + exists v. unfold growth. simpl. apply lookup_insert_eq.
    + simpl. rewrite dom_delete_L, dom_insert_L.
      apply set_eq. intros k. set_unfold.
      destruct (decide (k = "GDP Growth %")); tauto.
  - intros Hnone. rewrite Hp.
    rewrite (map_ext_in drop_growth id); [now rewrite map_id|].
    intros r Hr. now apply drop_growth_id, Hnone.
Qed.

Lemma calculate_gdp_growth_frame_witness :
  (forall r, In r india_3 -> growth r = None) /\
  Permutation (map drop_growth (calculate_gdp_growth Pad india_3)) india_3.
Proof.
  assert (H : forall r, In r india_3 -> growth r = None).
  { intros r [<- | [<- | [<- | []]]]; reflexivity. }
  exact (conj H (proj2 (proj2 (proj2 (calculate_gdp_growth_frame Pad india_3))) H)).
Defined.

(** A frame that comes with a "GDP Growth %" column does not keep its
    values, and gets no new column. *)
Lemma calculate_gdp_growth_frame_counterexample :
  map growth with_growth = [Some (Flt 5)] /\
  map growth (calculate_gdp_growth Pad with_growth) = [Some (Flt nan)] /\
  map growth (calculate_gdp_growth NoFill with_growth) = [Some (Flt nan)] /\
  map (fun r => dom (rest r)) (calculate_gdp_growth Pad with_growth)
  = map (fun r => dom (rest r)) with_growth /\
  ~ Permutation (calculate_gdp_growth Pad with_growth) with_growth.
Proof.
  repeat split; try (vm_compute; reflexivity).
  intros H. apply Permutation_length_1_inv in H.
  apply (f_equal (fun l => match l with
                           | [r] => match growth r with
                                    | Some (Flt g) => is_nan g
                                    | _ => false
                                    end
                           | _ => false
                           end)) in H.
  vm_compute in H. discriminate.
Qed.

(** ** Filtering *)

Lemma getitem_mask_map (P : Row -> bool) (df : DataFrame) :
  getitem_mask df (map P df) = List.filter P df.
Proof.
  induction df as [|r df IH]; simpl; [reflexivity|].
  rewrite IH. reflexivity.
Qed.

Lemma filtered_df_filter (df : DataFrame) (lo hi : Z) (sel : list string) :
  filtered_df df (lo, hi) sel
  = List.filter (fun r => (lo <=? Year r)%Z && (Year r <=? hi)%Z
                          && existsb (String.eqb (Country_Name r)) sel) df.
Proof.
  rewrite <- getitem_mask_map. unfold filtered_df. f_equal.
  unfold series_and, series_ge, series_le, isin. simpl.
  induction df as [|r df IH]; simpl; [reflexivity|]. now rewrite IH.
Qed.

Lemma existsb_eqb_elem_of (c : string) (sel : list string) :
  existsb (String.eqb c) sel = true <-> c ∈ sel.
Proof.
  rewrite existsb_exists, list_elem_of_In. split.
  - intros (x & Hx & E). apply String.eqb_eq in E. now subst.
  - intros H. exists c. split; [exact H | apply String.eqb_refl].
Qed.

Lemma kept_bool (lo hi : Z) (sel : list string) (r : Row) :
  (lo <=? Year r)%Z && (Year r <=? hi)%Z && existsb (String.eqb (Country_Name r)) sel
  = true <-> kept lo hi sel r.
Proof.
  unfold kept. rewrite !andb_true_iff, !Z.leb_le, existsb_eqb_elem_of. tauto.
Qed.

(** C2.  The filtered frame is the frame of the spec: exactly the rows with
    lo <= Year <= hi and a selected Country Name, in their order.  The two
    conditions can be applied one after the other, in either order.  With no
    country selected the result is the empty frame; the filter has no error
    case. *)
Theorem filtered_df_keeps (df : DataFrame) (lo hi : Z) (sel : list string) :
  filtered_df df (lo, hi) sel = spec_filter df lo hi sel /\
  (forall r, In r (filtered_df df (lo, hi) sel) <-> In r df /\ kept lo hi sel r) /\
  filtered_df df (lo, hi) sel
  = List.filter (fun r => existsb (String.eqb (Country_Name r)) sel)
      (List.filter (fun r => (lo <=? Year r)%Z && (Year r <=? hi)%Z) df) /\
  filtered_df df (lo, hi) sel
  = List.filter (fun r => (lo <=? Year r)%Z && (Year r <=? hi)%Z)
      (List.filter (fun r => existsb (String.eqb (Country_Name r)) sel) df) /\
  filtered_df df (lo, hi) [] = [].
Proof.
  rewrite !filtered_df_filter. split; [|split; [|split; [|split]]].
  - unfold spec_filter. induction df as [|r df IH]; [reflexivity|].
    rewrite filter_cons. simpl. rewrite IH.
    destruct (decide _) as [K|K].
    + apply (kept_bool lo hi sel r) in K. now rewrite K.
    + fold (kept lo hi sel r) in K. rewrite <- kept_bool in K.
      apply not_true_is_false in K. now rewrite K.
  - intros r. rewrite List.filter_In, kept_bool. tauto.
  - induction df as [|r df IH]; simpl; [reflexivity|]. rewrite IH.
    destruct (lo <=? Year r)%Z, (Year r <=? hi)%Z; simpl;
      try reflexivity; destruct (existsb _ sel); reflexivity.
  - induction df as [|r df IH]; simpl; [reflexivity|]. rewrite IH.
    destruct (existsb _ sel); simpl;
      destruct (lo <=? Year r)%Z, (Year r <=? hi)%Z; reflexivity.
  - induction df as [|r df IH]; simpl; [reflexivity|].
    now rewrite !andb_false_r.
Qed.

(** The theorem at the sample: the 2001 row of India is kept for the range
    2000-2001 and the selection India. *)
Lemma filtered_df_keeps_witness :
  let r := mkRow "India" 2001 110 ∅ in
  (In r india_3 /\ kept 2000 2001 ["India"] r) /\
  In r (filtered_df india_3 (2000, 2001)%Z ["India"]).
Proof.
  intros r.
  assert (H : In r india_3 /\ kept 2000 2001 ["India"] r).
  { split; [right; right; now left|].
    unfold kept. simpl. repeat split; try lia. apply list_elem_of_here. }
  destruct (filtered_df_keeps india_3 2000 2001 ["India"]) as (_ & Hin & _).
  exact (conj H (proj2 (Hin r) H)).
Defined.

(** ** Frames as objects *)

Lemma deref_alloc_lookup (h : heap) (df : DataFrame) :
  (h ++ [df])%list !! length h = Some df.
Proof. now apply list_lookup_middle. Qed.

Lemma lookup_old (h : heap) (new : heap) (l : loc) (df : DataFrame) :
  h !! l = Some df -> (h ++ new)%list !! l = Some df.
Proof.
  intros H. rewrite lookup_app_l; [exact H|]. now apply lookup_lt_Some in H.
Qed.

(** Boolean indexing reads its frame and puts the result at a new address. *)
Lemma filtered_df_st_run (h : heap) (l : loc) (df : DataFrame)
    (year_range : Z * Z) (sel : list string) :
  h !! l = Some df ->
  filtered_df_st l year_range sel h
  = Some (length h, (h ++ [filtered_df df year_range sel])%list).
Proof.
  intros H. unfold filtered_df_st, getitem_mask_st, bind, deref, alloc.
  rewrite H. reflexivity.
Qed.

(** [calculate_gdp_growth] reads its frame, puts the sorted copy at a new
    address and sets the growth column of the copy. *)
Lemma calculate_gdp_growth_st_run (fill : fill_method) (h : heap) (l : loc)
    (df : DataFrame) :
  h !! l = Some df ->
  calculate_gdp_growth_st fill l h
  = Some (length h, (h ++ [calculate_gdp_growth fill df])%list).
Proof.
  intros H.
  unfold calculate_gdp_growth_st, sort_values_st, setitem_float_st, bind,
    deref, alloc, store, ret.
  rewrite H. cbv beta iota.
  rewrite deref_alloc_lookup. cbv beta iota.
  rewrite deref_alloc_lookup. cbv beta iota.
  rewrite insert_app_r_alt by lia. rewrite Nat.sub_diag. reflexivity.
Qed.

Lemma pipeline_st_run (fill : fill_method) (h : heap) (l : loc) (df : DataFrame)
    (year_range : Z * Z) (sel : list string) :
  h !! l = Some df ->
  pipeline_st fill l year_range sel h
  = Some (S (length h),
          (h ++ [filtered_df df year_range sel;
                 pipeline fill df year_range sel])%list).
Proof.
  intros H. unfold pipeline_st, bind.
  rewrite (filtered_df_st_run h l df _ _ H).
  rewrite (calculate_gdp_growth_st_run fill _ (length h) _ (deref_alloc_lookup _ _)).
  rewrite length_app. simpl. rewrite Nat.add_1_r, <- app_assoc. reflexivity.
Qed.

(** C4.  Running the filter and then [calculate_gdp_growth] on the loaded
    frame changes no frame that was there before, the loaded one included:
    the filtered frame and the annotated frame are two new objects.  The
    filtered frame, which is the input of [calculate_gdp_growth], is as the
    filter built it. *)
Theorem pipeline_st_frame (fill : fill_method) (h : heap) (l : loc)
    (df : DataFrame) (year_range : Z * Z) (sel : list string) :
  h !! l = Some df ->
  exists (out : loc) (h' : heap),
    pipeline_st fill l year_range sel h = Some (out, h') /\
    h' !! l = Some df /\
    (forall k d, h !! k = Some d -> h' !! k = Some d) /\
    out <> l /\ h !! out = None /\
    h' !! out = Some (pipeline fill df year_range sel) /\
    h' !! length h = Some (filtered_df df year_range sel).
Proof.
  intros H. eexists _, _. split; [apply (pipeline_st_run fill h l df _ _ H)|].
  pose proof (lookup_lt_Some _ _ _ H) as Hlt.
  split; [now apply lookup_old|]. split; [intros k d; apply lookup_old|].
  split; [lia|]. split; [apply lookup_ge_None; lia|]. split.
  - rewrite (lookup_app_r h) by lia.
    replace (S (length h) - length h)%nat with 1%nat by lia. reflexivity.
  - now apply list_lookup_middle.
Qed.

Lemma pipeline_st_frame_witness :
  [india_3] !! 0%nat = Some india_3 /\
  exists (out : loc) (h' : heap),
    pipeline_st Pad 0 (2000, 2001)%Z ["India"] [india_3] = Some (out, h') /\
    h' !! 0%nat = Some india_3.
Proof.
  split; [reflexivity|].
  destruct (pipeline_st_frame Pad [india_3] 0 india_3 (2000, 2001)%Z ["India"]
              eq_refl) as (out & h' & Hrun & Hdf & _).
  exists out, h'. split; assumption.
Defined.

(** C8.  The pipeline run a second time on the same frame with the same
    parameters, after the first run, returns a frame equal to the first
    one; both are the value of [pipeline] at the frame and the parameters. *)
Theorem pipeline_st_twice (fill : fill_method) (h : heap) (l : loc)
    (df : DataFrame) (year_range : Z * Z) (sel : list string) :
  h !! l = Some df ->
  exists (out1 out2 : loc) (h1 h2 : heap),
    pipeline_st fill l year_range sel h = Some (out1, h1) /\
    pipeline_st fill l year_range sel h1 = Some (out2, h2) /\
    h2 !! out1 = Some (pipeline fill df year_range sel) /\
    h2 !! out2 = Some (pipeline fill df year_range sel).
Proof.
  intros H.
  set (f := filtered_df df year_range sel).
  set (p := pipeline fill df year_range sel).
  pose proof (pipeline_st_run fill h l df year_range sel H) as R1.
  fold f p in R1.
  pose proof (pipeline_st_run fill _ l df year_range sel
                (lookup_old h [f; p] l df H)) as R2.
  fold f p in R2.
  eexists _, _, _, _. split; [exact R1|]. split; [exact R2|].
  assert (O1 : (h ++ [f; p])%list !! S (length h) = Some p).
  { rewrite (lookup_app_r h) by lia.
    replace (S (length h) - length h)%nat with 1%nat by lia. reflexivity. }
  split.
  - now apply lookup_old.
  - rewrite lookup_app_r by lia.
    replace (S (length (h ++ [f; p])) - length (h ++ [f; p]))%nat
      with 1%nat by lia.
    reflexivity.
Qed.

Lemma pipeline_st_twice_witness :
  [india_3] !! 0%nat = Some india_3 /\
  exists (out1 out2 : loc) (h1 h2 : heap),
    pipeline_st Pad 0 (2000, 2001)%Z ["India"] [india_3] = Some (out1, h1) /\
    pipeline_st Pad 0 (2000, 2001)%Z ["India"] h1 = Some (out2, h2) /\
    h2 !! out1 = h2 !! out2.
Proof.
  split; [reflexivity|].
  destruct (pipeline_st_twice Pad [india_3] 0 india_3 (2000, 2001)%Z ["India"]
              eq_refl) as (out1 & out2 & h1 & h2 & R1 & R2 & O1 & O2).
  exists out1, out2, h1, h2. repeat split; try assumption. congruence.
Defined.

(** ** The loader *)

Lemma has_column_getitem (name : string) (df : RawFrame) :
  has_column name df = false <-> getitem df name = None.
Proof.
  unfold has_column, columns.
  induction df as [|[n c] df IH]; simpl; [tauto|].
  rewrite (String.eqb_sym name n). destruct (String.eqb n name); simpl; [|exact IH].
  split; discriminate.
Qed.

Lemma has_column_true (name : string) (df : RawFrame) :
  has_column name df = true <-> exists col, getitem df name = Some col.
Proof.
  destruct (has_column name df) eqn:E.
  - split; [intros _ | reflexivity].
    destruct (getitem df name) eqn:G; [eauto|].
    apply has_column_getitem in G. congruence.
  - apply has_column_getitem in E. rewrite E.
    split; [discriminate | intros [col [=]]].
Qed.

Lemma columns_rename (df : RawFrame) (old new : string) :
  columns (rename df old new)
  = map (fun n => if String.eqb n old then new else n) (columns df).
Proof. unfold columns, rename. rewrite !map_map. reflexivity. Qed.

(** The renamed column is found under its new label when no column had it. *)
Lemma getitem_rename_new (df : RawFrame) (old new : string) :
  getitem df new = None -> getitem (rename df old new) new = getitem df old.
Proof.
  induction df as [|[n c] df IH]; simpl; [reflexivity|].
  destruct (String.eqb_spec n new) as [->|Hn]; [discriminate|].
  intros H. destruct (String.eqb_spec n old) as [->|Ho].
  - now rewrite String.eqb_refl.
  - apply String.eqb_neq in Hn. rewrite Hn. now apply IH.
Qed.

Lemma getitem_rename_old (df : RawFrame) (old new : string) :
  old <> new -> getitem (rename df old new) old = None.
Proof.
  intros Hne. induction df as [|[n c] df IH]; simpl; [reflexivity|].
  destruct (String.eqb_spec n old) as [->|Ho].
  - apply not_eq_sym, String.eqb_neq in Hne. now rewrite Hne.
  - apply String.eqb_neq in Ho. now rewrite Ho.
Qed.

Lemma getitem_rename_other (df : RawFrame) (old new name : string) :
  name <> old -> name <> new ->
  getitem (rename df old new) name = getitem df name.
Proof.
  intros Ho Hn. induction df as [|[n c] df IH]; simpl; [reflexivity|].
  destruct (String.eqb_spec n old) as [->|E].
  - apply not_eq_sym, String.eqb_neq in Ho, Hn. now rewrite Ho, Hn.
  - now rewrite IH.
Qed.

Lemma getitem_app (df df' : RawFrame) (name : string) :
  getitem (df ++ df')%list name
  = match getitem df name with Some c => Some c | None => getitem df' name end.
Proof.
  induction df as [|[n c] df IH]; simpl; [reflexivity|].
  destruct (String.eqb n name); [reflexivity | exact IH].
Qed.

Lemma getitem_setitem_eq (df : RawFrame) (name : string) (col : list cell) :
  getitem (setitem df name col) name = Some col.
Proof.
  unfold setitem. destruct (has_column name df) eqn:H.
  - apply has_column_true in H. destruct H as [old H].
    induction df as [|[n c] df IH]; simpl in *; [discriminate|].
    destruct (String.eqb n name) eqn:E; simpl.
    + now rewrite String.eqb_refl.
    + rewrite E. now apply IH.
  - apply has_column_getitem in H. rewrite getitem_app, H. simpl.
    now rewrite String.eqb_refl.
Qed.

Lemma getitem_setitem_ne (df : RawFrame) (name other : string) (col : list cell) :
  other <> name -> getitem (setitem df name col) other = getitem df other.
Proof.
  intros Hne. unfold setitem. destruct (has_column name df).
  - induction df as [|[n c] df IH]; simpl; [reflexivity|].
    destruct (String.eqb_spec n name) as [->|E]; simpl.
    + apply not_eq_sym, String.eqb_neq in Hne. now rewrite Hne.
    + now rewrite IH.
  - rewrite getitem_app. simpl.
    apply not_eq_sym, String.eqb_neq in Hne. rewrite Hne.
    now destruct (getitem df other).
Qed.

Lemma columns_setitem (df : RawFrame) (name : string) (col : list cell) :
  columns (setitem df name col)
  = if has_column name df then columns df else (columns df ++ [name])%list.
Proof.
  unfold setitem, columns. destruct (has_column name df).
  - induction df as [|[n c] df IH]; simpl; [reflexivity|].
    rewrite IH. now destruct (String.eqb_spec n name) as [->|E].
  - now rewrite map_app.
Qed.

Lemma has_column_match (name : string) (df : RawFrame) :
  has_column name df = match getitem df name with Some _ => true | None => false end.
Proof.
  destruct (getitem df name) eqn:G.
  - apply has_column_true. eauto.
  - now apply has_column_getitem.
Qed.

Lemma has_column_rename_other (df : RawFrame) (old new name : string) :
  name <> old -> name <> new ->
  has_column name (rename df old new) = has_column name df.
Proof.
  intros Ho Hn. now rewrite !has_column_match, getitem_rename_other.
Qed.

(** A code is a key of the dict exactly when a region of the table lists it,
    and then its value is that region. *)
Lemma dict_comprehension_codes (region : string) (codes : list string)
    (d : gmap string string) (code r : string) :
  foldl (fun d code => <[code := region]> d) d codes !! code = Some r ->
  d !! code = Some r \/ (r = region /\ In code codes).
Proof.
  revert d. induction codes as [|x codes IH]; intros d; simpl; [auto|].
  intros H. apply IH in H. destruct H as [H | [-> H]]; [|auto].
  destruct (decide (x = code)) as [->|Hne].
  - rewrite lookup_insert_eq in H. injection H as <-. auto.
  - rewrite lookup_insert_ne in H by exact Hne. auto.
Qed.

Lemma dict_comprehension_lookup (items : list (string * list string))
    (d : gmap string string) (code r : string) :
  foldl (fun d rc => foldl (fun d code => <[code := fst rc]> d) d (snd rc)) d items
    !! code = Some r ->
  d !! code = Some r \/ exists codes, In (r, codes) items /\ In code codes.
Proof.
  revert d. induction items as [|[region codes] items IH]; intros d; simpl; [auto|].
  intros H. apply IH in H. destruct H as [H | (cs & H1 & H2)].
  - apply dict_comprehension_codes in H. destruct H as [H | [-> H]]; [auto|].
    right. exists codes. auto.
  - right. exists cs. auto.
Qed.

Lemma reverse_region_spec (code region : string) :
  reverse_region !! code = Some region
  <-> exists codes, In (region, codes) region_map /\ In code codes.
Proof.
  split.
  - intros H. apply dict_comprehension_lookup in H.
    destruct H as [H | H]; [now rewrite lookup_empty in H | exact H].
  - intros (codes & Hr & Hc). unfold region_map in Hr. simpl in Hr.
    repeat (destruct Hr as [Hr | Hr];
            [ injection Hr as <- <-; simpl in Hc;
              repeat (destruct Hc as [<- | Hc]; [vm_compute; reflexivity|]);
              contradiction
            | ]).
    contradiction.
Qed.

(** C5.  A frame with a column "Value" and no column "GDP" comes out of the
    loader with the values of "Value" under "GDP" and with no column "Value".
    Every column other than these and "Region" is as it was, and the labels
    are those of the file with "Value" replaced by "GDP" (and "Region" at the
    end when the loader adds it). *)
Theorem load_data_renames_value (df : RawFrame) (values : list cell) :
  getitem df "Value" = Some values ->
  has_column "GDP" df = false ->
  let out := load_data_frame df in
  getitem out "GDP" = Some values /\
  has_column "Value" out = false /\
  (forall name, name <> "Value" -> name <> "GDP" -> name <> "Region" ->
     getitem out name = getitem df name) /\
  columns out
  = (map (fun n => if String.eqb n "Value" then "GDP" else n) (columns df)
     ++ (if has_column "Country Code" df && negb (has_column "Region" df)
         then ["Region"] else []))%list.
Proof.
  intros Hv Hg out. unfold out, load_data_frame.
  assert (Hhas : has_column "Value" df = true) by (apply has_column_true; eauto).
  rewrite Hhas. set (df1 := rename df "Value" "GDP").
  assert (G1 : getitem df1 "GDP" = Some values).
  { unfold df1. rewrite getitem_rename_new; [exact Hv|].
    now apply has_column_getitem. }
  assert (V1 : getitem df1 "Value" = None)
    by (apply getitem_rename_old; discriminate).
  assert (O1 : forall name, name <> "Value" -> name <> "GDP" ->
                 getitem df1 name = getitem df name)
    by (intros; now apply getitem_rename_other).
  assert (C1 : has_column "Country Code" df1 = has_column "Country Code" df)
    by (apply has_column_rename_other; discriminate).
  assert (R1 : has_column "Region" df1 = has_column "Region" df)
    by (apply has_column_rename_other; discriminate).
  rewrite C1. destruct (has_column "Country Code" df) eqn:Hcc; simpl.
  - apply has_column_true in C1. destruct C1 as [codes C1].
    rewrite C1. split; [|split; [|split]].
    + rewrite getitem_setitem_ne by discriminate. exact G1.
    + rewrite has_column_match, getitem_setitem_ne by discriminate. now rewrite V1.
    + intros name H1 H2 H3. rewrite getitem_setitem_ne by exact H3. now apply O1.
    + rewrite columns_setitem, R1. unfold df1. rewrite columns_rename.
      destruct (has_column "Region" df); simpl; [now rewrite app_nil_r | reflexivity].
  - split; [exact G1|]. split; [|split].
    + now rewrite has_column_match, V1.
    + intros name H1 H2 _. now apply O1.
    + unfold df1. now rewrite columns_rename, app_nil_r.
Qed.

Lemma load_data_renames_value_witness :
  let df := [("Country Name", [Str "India"]); ("Year", [Int 2000]);
             ("Value", [Flt 100])] in
  getitem df "Value" = Some [Flt 100] /\ has_column "GDP" df = false /\
  getitem (load_data_frame df) "GDP" = Some [Flt 100] /\
  has_column "Value" (load_data_frame df) = false.
Proof.
  intros df.
  destruct (load_data_renames_value df [Flt 100] eq_refl eq_refl)
    as (H1 & H2 & _).
  exact (conj eq_refl (conj eq_refl (conj H1 H2))).
Defined.

(** C6.  When the file has a column "Country Code", the loaded frame has a
    column "Region" of the same length: a row whose code is listed under a
    region of the six-region table has that region, and a row whose code is
    listed nowhere in the table has NaN.  When the file has no such column,
    the loader adds no column: the labels are those of the file, "Value"
    renamed, and "Region" is looked up as before. *)
Theorem load_data_region (df : RawFrame) :
  let out := load_data_frame df in
  (forall codes, getitem df "Country Code" = Some codes ->
     exists regions,
       getitem out "Region" = Some regions /\
       length regions = length codes /\
       forall (i : nat) (c : cell), codes !! i = Some c ->
         (forall code region cs, c = Str code ->
            In (region, cs) region_map -> In code cs ->
            regions !! i = Some (Str region)) /\
         ((forall code region cs, c = Str code ->
             In (region, cs) region_map -> ~ In code cs) ->
            regions !! i = Some NaN)) /\
  (getitem df "Country Code" = None ->
     getitem out "Region" = getitem df "Region" /\
     columns out = map (fun n => if String.eqb n "Value" then "GDP" else n) (columns df)).
Proof.
  intros out. unfold out, load_data_frame.
  set (df1 := if has_column "Value" df then rename df "Value" "GDP" else df).
  assert (O1 : forall name, name <> "Value" -> name <> "GDP" ->
                 getitem df1 name = getitem df name).
  { intros name H1 H2. unfold df1. destruct (has_column "Value" df);
      [now apply getitem_rename_other | reflexivity]. }
  assert (K1 : columns df1
               = map (fun n => if String.eqb n "Value" then "GDP" else n) (columns df)).
  { unfold df1. destruct (has_column "Value" df) eqn:Hv; [apply columns_rename|].
    unfold has_column in Hv. induction (columns df) as [|n l IH]; [reflexivity|].
    cbn [existsb] in Hv. apply orb_false_elim in Hv. destruct Hv as [Hn Hl].
    cbn [map]. rewrite String.eqb_sym in Hn. rewrite Hn. f_equal. now apply IH. }
  rewrite has_column_match, (O1 "Country Code") by discriminate.
  split.
  - intros codes Hc. rewrite Hc. eexists. split; [apply getitem_setitem_eq|].
    unfold series_map. split; [apply length_map|].
    intros i c Hi. rewrite list_lookup_fmap, Hi.
    change (map_cell reverse_region <$> Some c)
      with (Some (map_cell reverse_region c)).
    split.
    + intros code region cs -> Hr Hcs.
      assert (L : reverse_region !! code = Some region).
      { apply reverse_region_spec. exists cs. split; assumption. }
      unfold map_cell. rewrite L. reflexivity.
    + intros Hno. destruct c as [code|z|f]; try reflexivity.
      unfold map_cell.
      destruct (reverse_region !! code) as [region|] eqn:L; [|reflexivity].
      apply reverse_region_spec in L. destruct L as (cs & Hr & Hcs).
      destruct (Hno code region cs eq_refl Hr Hcs).
  - intros Hc. rewrite Hc. split; [|exact K1].
    destruct (String.eqb_spec "Region" "Value"); [discriminate|].
    apply O1; discriminate.
Qed.

Lemma load_data_region_witness :
  let df := [("Country Code", [Str "IN"; Str "ZZ"]); ("Value", [Flt 1; Flt 2])] in
  getitem df "Country Code" = Some [Str "IN"; Str "ZZ"] /\
  exists regions,
    getitem (load_data_frame df) "Region" = Some regions /\
    regions !! 0%nat = Some (Str "Asia").
Proof.
  intros df. split; [reflexivity|].
  destruct (proj1 (load_data_region df) [Str "IN"; Str "ZZ"] eq_refl)
    as (regions & Hr & _ & Hi).
  exists regions. split; [exact Hr|].
  apply (proj1 (Hi 0%nat (Str "IN") eq_refl)
           "IN" "Asia" ["CN"; "IN"; "JP"; "ID"; "KR"; "SG"; "SA"] eq_refl).
  - now left.
  - right. now left.
Defined.

(** ** The cache *)

Lemma load_data_hit (w : world) (v : RawFrame) :
  cache w = Some v -> load_data w = (Some v, w).
Proof. intros H. unfold load_data, cache_data. now rewrite H. Qed.

(** A call that returns a frame leaves that frame in the cache. *)
Lemma load_data_returns (w w1 : world) (d : RawFrame) :
  load_data w = (Some d, w1) -> cache w1 = Some d.
Proof.
  unfold load_data, cache_data, load_data_body, read_csv.
  destruct (cache w) as [v|] eqn:C.
  - intros [= <- <-]. exact C.
  - destruct (gdp_csv w) as [f|]; simpl; [|discriminate].
    intros [= <- <-]. reflexivity.
Qed.

(** Once a frame is cached, every call returns it and the file is not read,
    whatever happens to the file. *)
Lemma run_cached (tr : list event) :
  forall (w : world) (v : RawFrame),
  cache w = Some v ->
  Forall (fun c => c = (Some v, reads w)) (fst (run tr w)) /\
  cache (snd (run tr w)) = Some v /\ reads (snd (run tr w)) = reads w.
Proof.
  induction tr as [|[|content] tr IH]; intros w v C; simpl.
  - auto.
  - rewrite (load_data_hit w v C).
    destruct (IH w v C) as (H1 & H2 & H3).
    destruct (run tr w) as [rs w2]. simpl in *. auto.
  - apply (IH {| gdp_csv := content; cache := cache w; reads := reads w |} v C).
Qed.

Lemma run_stable (tr : list event) :
  forall (w : world) (i : nat) (d : RawFrame) (n : nat),
  fst (run tr w) !! i = Some (Some d, n) ->
  (forall j c, (i <= j)%nat -> fst (run tr w) !! j = Some c -> c = (Some d, n)) /\
  cache (snd (run tr w)) = Some d /\ reads (snd (run tr w)) = n.
Proof.
  induction tr as [|[|content] tr IH]; intros w i d n; simpl.
  - discriminate.
  - destruct (load_data w) as [r w1] eqn:L.
    pose proof (IH w1) as IH1.
    destruct (run tr w1) as [rs w2] eqn:R. simpl in *.
    destruct i as [|i]; simpl.
    + intros [= -> <-]. apply load_data_returns in L.
      destruct (run_cached tr w1 d L) as (H1 & H2 & H3). rewrite R in *.
      simpl in *. split; [|auto].
      intros [|j] c _; simpl; [now intros [= <-]|].
      intros Hj. rewrite List.Forall_forall in H1. apply H1.
      apply list_elem_of_In. eapply list_elem_of_lookup_2; eauto.
    + intros Hi. destruct (IH1 i d n Hi) as (H1 & H2). split; [|exact H2].
      intros [|j] c Hle; simpl; [lia|]. apply H1. lia.
  - apply IH.
Qed.

(** C9.  In a process that starts with an empty cache, through any sequence
    of script runs and changes of the file: once a call of [load_data] has
    returned a frame, every later call returns that same frame with the read
    count unchanged, so the file is not read again, and the cache holds that
    frame to the end.  When the file is there at the first call, every call
    returns the frame loaded then and the file is read once in all. *)
Theorem load_data_once (file : option RawFrame) (tr : list event) :
  let calls := fst (run tr (boot file)) in
  let w := snd (run tr (boot file)) in
  (forall i j d n c, (i <= j)%nat ->
     calls !! i = Some (Some d, n) -> calls !! j = Some c -> c = (Some d, n)) /\
  (forall i d n, calls !! i = Some (Some d, n) -> cache w = Some d /\ reads w = n) /\
  (forall f tr', file = Some f -> tr = Rerun :: tr' ->
     Forall (fun c => c = (Some (load_data_frame f), 1%nat)) calls /\
     cache w = Some (load_data_frame f) /\ reads w = 1%nat).
Proof.
  intros calls w. split; [|split].
  - intros i j d n c Hle Hi Hj.
    destruct (run_stable tr (boot file) i d n Hi) as [H _]. now apply (H j).
  - intros i d n Hi. apply (run_stable tr (boot file) i d n Hi).
  - intros f tr' -> ->. unfold calls, w. simpl.
    pose proof (run_cached tr'
                  {| gdp_csv := Some f; cache := Some (load_data_frame f); reads := 1 |}
                  (load_data_frame f) eq_refl) as (H1 & H2 & H3).
    destruct (run tr' _) as [rs w2]. simpl in *. split; [|auto].
    constructor; [reflexivity | exact H1].
Qed.

(** The theorem on a process whose file is deleted after the first run. *)
Lemma load_data_once_witness :
  let f := [("Value", [Flt 100])] in
  let tr := [Rerun; WriteFile None; Rerun] in
  fst (run tr (boot (Some f))) !! 0%nat = Some (Some (load_data_frame f), 1%nat) /\
  fst (run tr (boot (Some f))) !! 1%nat = Some (Some (load_data_frame f), 1%nat).
Proof.
  intros f tr.
  assert (H0 : fst (run tr (boot (Some f))) !! 0%nat
               = Some (Some (load_data_frame f), 1%nat)) by reflexivity.
  split; [exact H0|].
  destruct (fst (run tr (boot (Some f))) !! 1%nat) as [c|] eqn:H1;
    [|discriminate].
  f_equal.
  exact (proj1 (load_data_once (Some f) tr) 0%nat 1%nat _ _ c
           (Nat.le_succ_diag_r 0) H0 H1).
Defined.

(** ** The sidebar *)

Section SortedBy.
Context {A : Type} (leb : A -> A -> bool).
Hypothesis leb_total : forall a b, leb a b = false -> leb b a = true.
Hypothesis leb_trans : forall a b c, leb a b = true -> leb b c = true -> leb a c = true.

Lemma insert_by_perm (x : A) (l : list A) : Permutation (insert_by leb x l) (x :: l).
Proof.
  induction l as [|y l IH]; simpl; [reflexivity|].
  destruct (leb x y); [reflexivity|]. rewrite IH. apply perm_swap.
Qed.

Lemma sorted_perm (l : list A) : Permutation (sorted leb l) l.
Proof.
  induction l as [|x l IH]; simpl; [reflexivity|].
  rewrite insert_by_perm. now constructor.
Qed.

Lemma sorted_In (l : list A) (x : A) : In x (sorted leb l) <-> In x l.
Proof.
  split; apply Permutation_in; [|symmetry]; apply sorted_perm.
Qed.

Lemma insert_by_sorted (x : A) (l : list A) :
  StronglySorted (fun a b => leb a b = true) l ->
  StronglySorted (fun a b => leb a b = true) (insert_by leb x l).
Proof.
  induction 1 as [|y l Hl IH Hy]; simpl.
  - repeat constructor.
  - destruct (leb x y) eqn:Hxy.
    + constructor; [now constructor|]. constructor; [exact Hxy|].
      eapply List.Forall_impl; [|exact Hy]. intros z Hz. now apply (leb_trans x y z).
    + constructor; [exact IH|].
      apply List.Forall_forall. intros z Hz.
      apply (Permutation_in _ (insert_by_perm x l)) in Hz.
      destruct Hz as [<- | Hz]; [now apply leb_total|].
      apply (proj1 (List.Forall_forall _ _) Hy z Hz).
Qed.

Lemma sorted_sorted (l : list A) :
  StronglySorted (fun a b => leb a b = true) (sorted leb l).
Proof.
  induction l as [|x l IH]; simpl; [constructor|]. now apply insert_by_sorted.
Qed.

(** A sorted list without repetition is strictly sorted. *)
Lemma sorted_strict (l : list A) :
  StronglySorted (fun a b => leb a b = true) l -> List.NoDup l ->
  StronglySorted (fun a b => leb a b = true /\ a <> b) l.
Proof.
  induction 1 as [|x l Hl IH Hx]; intros Hnd; [constructor|].
  apply List.NoDup_cons_iff in Hnd. destruct Hnd as [Hx' Hnd].
  constructor; [now apply IH|].
  apply List.Forall_forall. intros y Hy. split.
  - apply (proj1 (List.Forall_forall _ _) Hx y Hy).
  - intros ->. contradiction.
Qed.

End SortedBy.

Section Unique.
Context {A : Type} (eqb : A -> A -> bool).
Hypothesis eqb_eq : forall a b, eqb a b = true <-> a = b.

Lemma unique_In (l : list A) (x : A) : In x (unique eqb l) <-> In x l.
Proof.
  induction l as [|y l IH]; simpl; [tauto|].
  rewrite List.filter_In, IH, negb_true_iff. split.
  - intros [H | [H _]]; auto.
  - intros [H | H]; [now left|].
    destruct (eqb x y) eqn:E; [left; symmetry; now apply eqb_eq | right; auto].
Qed.

Lemma unique_NoDup (l : list A) : List.NoDup (unique eqb l).
Proof.
  induction l as [|y l IH]; simpl; constructor.
  - rewrite List.filter_In, negb_true_iff. intros [_ H].
    assert (E : eqb y y = true) by now apply eqb_eq. congruence.
  - now apply List.NoDup_filter.
Qed.

End Unique.

Lemma string_leb_total (a b : string) : String.leb a b = false -> String.leb b a = true.
Proof.
  intros H. destruct (String.leb_total a b) as [H' | H']; congruence.
Qed.

Lemma string_leb_trans (a b c : string) :
  String.leb a b = true -> String.leb b c = true -> String.leb a c = true.
Proof.
  unfold String.leb.
  destruct (String.compare a b) eqn:Hab; try discriminate;
    destruct (String.compare b c) eqn:Hbc; try discriminate; intros _ _.
  - apply String.compare_eq_iff in Hab, Hbc. subst.
    now rewrite string_compare_refl.
  - apply String.compare_eq_iff in Hab. subst. now rewrite Hbc.
  - apply String.compare_eq_iff in Hbc. subst. now rewrite Hab.
  - now rewrite (string_compare_trans a b c).
Qed.

Lemma string_leb_ne_lt (a b : string) :
  String.leb a b = true -> a <> b -> String.compare a b = Lt.
Proof.
  unfold String.leb. destruct (String.compare a b) eqn:Hab; try discriminate; auto.
  apply String.compare_eq_iff in Hab. contradiction.
Qed.

Lemma StronglySorted_weaken {A : Type} (R R' : A -> A -> Prop) (l : list A) :
  (forall a b, R a b -> R' a b) -> StronglySorted R l -> StronglySorted R' l.
Proof.
  intros HR. induction 1 as [|x l Hl IH Hx]; constructor; [exact IH|].
  eapply List.Forall_impl; [|exact Hx]. intros y. apply HR.
Qed.

(** X1.  The years offered by the slider are the years of the frame, each
    once, in strictly ascending order. *)
Theorem years_strictly_ascending (df : DataFrame) :
  StronglySorted Z.lt (years df) /\
  (forall y, In y (years df) <-> exists r, In r df /\ Year r = y).
Proof.
  unfold years. split.
  - eapply StronglySorted_weaken; cycle 1.
    + apply (sorted_strict Z.leb).
      * apply sorted_sorted.
        -- intros a b H. apply Z.leb_gt in H. apply Z.leb_le. lia.
        -- intros a b c H1 H2. apply Z.leb_le in H1, H2. apply Z.leb_le. lia.
      * apply (Permutation_NoDup (Permutation_sym (sorted_perm Z.leb _))).
        apply unique_NoDup. apply Z.eqb_eq.
    + intros a b [H1 H2]. apply Z.leb_le in H1. lia.
  - intros y. rewrite sorted_In, (unique_In Z.eqb Z.eqb_eq), in_map_iff.
    split; intros (r & H1 & H2); exists r; auto.
Qed.

(** X2.  The countries offered for selection are the country names of the
    frame, each once, in strictly ascending string order. *)
Theorem countries_strictly_ascending (df : DataFrame) :
  StronglySorted (fun a b => String.compare a b = Lt) (countries df) /\
  (forall c, In c (countries df) <-> exists r, In r df /\ Country_Name r = c).
Proof.
  unfold countries. split.
  - eapply StronglySorted_weaken; cycle 1.
    + apply (sorted_strict String.leb).
      * apply sorted_sorted; [apply string_leb_total | apply string_leb_trans].
      * apply (Permutation_NoDup (Permutation_sym (sorted_perm String.leb _))).
        apply unique_NoDup. apply String.eqb_eq.
    + intros a b [H1 H2]. now apply string_leb_ne_lt.
  - intros c. rewrite sorted_In, (unique_In String.eqb String.eqb_eq), in_map_iff.
    split; intros (r & H1 & H2); exists r; auto.
Qed.

Lemma fold_min_spec (l : list Z) (x : Z) :
  In (fold_left Z.min l x) (x :: l) /\
  forall y, In y (x :: l) -> (fold_left Z.min l x <= y)%Z.
Proof.
  revert x. induction l as [|a l IH]; intros x; simpl.
  - split; [now left|]. intros y [<- | []]. lia.
  - destruct (IH (Z.min x a)) as [H1 H2]. split.
    + destruct H1 as [H1 | H1]; [|auto].
      rewrite <- H1. destruct (Z.min_spec x a) as [[_ ->] | [_ ->]]; auto.
    + intros y Hy. assert (Hm : (fold_left Z.min l (Z.min x a) <= Z.min x a)%Z)
        by (apply H2; now left).
      destruct Hy as [<- | [<- | Hy]]; [lia | lia |]. apply H2. now right.
Qed.

Lemma fold_max_spec (l : list Z) (x : Z) :
  In (fold_left Z.max l x) (x :: l) /\
  forall y, In y (x :: l) -> (y <= fold_left Z.max l x)%Z.
Proof.
  revert x. induction l as [|a l IH]; intros x; simpl.
  - split; [now left|]. intros y [<- | []]. lia.
  - destruct (IH (Z.max x a)) as [H1 H2]. split.
    + destruct H1 as [H1 | H1]; [|auto].
      rewrite <- H1. destruct (Z.max_spec x a) as [[_ ->] | [_ ->]]; auto.
    + intros y Hy. assert (Hm : (Z.max x a <= fold_left Z.max l (Z.max x a))%Z)
        by (apply H2; now left).
      destruct Hy as [<- | [<- | Hy]]; [lia | lia |]. apply H2. now right.
Qed.

Lemma py_min_spec (l : list Z) (m : Z) :
  py_min l = Some m -> In m l /\ forall y, In y l -> (m <= y)%Z.
Proof.
  destruct l as [|x l]; simpl; [discriminate|]. intros [= <-]. apply fold_min_spec.
Qed.

Lemma py_max_spec (l : list Z) (m : Z) :
  py_max l = Some m -> In m l /\ forall y, In y l -> (y <= m)%Z.
Proof.
  destruct l as [|x l]; simpl; [discriminate|]. intros [= <-]. apply fold_max_spec.
Qed.

Lemma years_In (df : DataFrame) (y : Z) :
  In y (years df) <-> exists r, In r df /\ Year r = y.
Proof.
  unfold years. rewrite sorted_In, (unique_In Z.eqb Z.eqb_eq), in_map_iff.
  split; intros (r & H1 & H2); exists r; auto.
Qed.

Lemma countries_In (df : DataFrame) (c : string) :
  In c (countries df) <-> exists r, In r df /\ Country_Name r = c.
Proof.
  unfold countries.
  rewrite sorted_In, (unique_In String.eqb String.eqb_eq), in_map_iff.
  split; intros (r & H1 & H2); exists r; auto.
Qed.

Lemma years_nil (df : DataFrame) : years df = [] <-> df = [].
Proof.
  split; [|now intros ->].
  destruct df as [|r df]; [reflexivity|]. intros H.
  assert (Hin : In (Year r) (years (r :: df)))
    by (apply years_In; exists r; split; [now left | reflexivity]).
  rewrite H in Hin. contradiction.
Qed.

(** X3.  The bounds of the slider, [min(years)] and [max(years)]: on a frame
    without rows both raise; on any other frame they are years of the frame
    and every row's year lies between them. *)
Theorem slider_bounds (df : DataFrame) :
  (df = [] -> py_min (years df) = None /\ py_max (years df) = None) /\
  (df <> [] ->
   exists lo hi,
     py_min (years df) = Some lo /\ py_max (years df) = Some hi /\
     (exists r, In r df /\ Year r = lo) /\ (exists r, In r df /\ Year r = hi) /\
     forall r, In r df -> (lo <= Year r <= hi)%Z).
Proof.
  split; [now intros ->|]. intros Hne.
  destruct (years df) as [|y ys] eqn:E; [now apply years_nil in E|].
  exists (fold_left Z.min ys y), (fold_left Z.max ys y).
  split; [reflexivity|]. split; [reflexivity|].
  destruct (fold_min_spec ys y) as [Hmin1 Hmin2].
  destruct (fold_max_spec ys y) as [Hmax1 Hmax2].
  rewrite <- E in Hmin1, Hmin2, Hmax1, Hmax2.
  split; [now apply years_In|]. split; [now apply years_In|].
  intros r Hr.
  assert (Hy : In (Year r) (years df)) by (apply years_In; eauto).
  split; [now apply Hmin2 | now apply Hmax2].
Qed.

Lemma filter_all {A : Type} (f : A -> bool) (l : list A) :
  (forall x, In x l -> f x = true) -> List.filter f l = l.
Proof.
  induction l as [|x l IH]; intros H; simpl; [reflexivity|].
  rewrite (H x) by now left. f_equal. apply IH. intros y Hy. apply H. now right.
Qed.

(** X4.  With the slider at its two bounds and every offered country
    selected, the filter keeps the whole frame. *)
Theorem filtered_df_full_selection (df : DataFrame) (lo hi : Z) :
  py_min (years df) = Some lo ->
  py_max (years df) = Some hi ->
  filtered_df df (lo, hi) (countries df) = df.
Proof.
  intros Hlo Hhi. rewrite filtered_df_filter. apply filter_all. intros r Hr.
  apply py_min_spec in Hlo. apply py_max_spec in Hhi.
  assert (Hy : In (Year r) (years df)) by (apply years_In; eauto).
  apply kept_bool. unfold kept. split; [now apply Hlo|]. split; [now apply Hhi|].
  apply list_elem_of_In, countries_In. eauto.
Qed.

Lemma filtered_df_full_selection_witness :
  py_min (years two_countries) = Some 2000%Z /\
  py_max (years two_countries) = Some 2002%Z /\
  filtered_df two_countries (2000, 2002)%Z (countries two_countries) = two_countries.
Proof.
  exact (conj eq_refl (conj eq_refl
           (filtered_df_full_selection two_countries 2000 2002 eq_refl eq_refl))).
Defined.

(** ** The views *)

Lemma getitem_mask_series (f : Row -> bool) (df : DataFrame) (mask : list bool) :
  mask = map f df -> getitem_mask df mask = List.filter f df.
Proof. intros ->. apply getitem_mask_map. Qed.

Lemma filter_filter {A : Type} (f g : A -> bool) (l : list A) :
  List.filter f (List.filter g l) = List.filter (fun x => f x && g x) l.
Proof.
  induction l as [|x l IH]; simpl; [reflexivity|].
  destruct (g x); simpl; rewrite IH; [|now rewrite andb_false_r].
  rewrite andb_true_r. reflexivity.
Qed.

Lemma filter_ext_in {A : Type} (f g : A -> bool) (l : list A) :
  (forall x, In x l -> f x = g x) -> List.filter f l = List.filter g l.
Proof.
  induction l as [|x l IH]; intros H; simpl; [reflexivity|].
  rewrite (H x) by now left. rewrite IH; [reflexivity|].
  intros y Hy. apply H. now right.
Qed.

Lemma map_df_filter (df : DataFrame) (m : Z) :
  py_max (map Year df) = Some m ->
  map_df df = List.filter (fun r => (Year r =? m)%Z) df.
Proof.
  intros H. unfold map_df, series_max. rewrite H.
  apply getitem_mask_series. unfold series_eq. now rewrite map_map.
Qed.

(** X5.  The frame of the first view's map holds exactly the rows of the
    latest year of the loaded frame, and has a row whenever the loaded frame
    has one. *)
Theorem map_df_latest_year (df : DataFrame) :
  (forall r, In r (map_df df) <->
             In r df /\ forall r', In r' df -> (Year r' <= Year r)%Z) /\
  (df <> [] -> map_df df <> []).
Proof.
  destruct df as [|r0 df0]; [split; [|congruence]|].
  { intros r. simpl. split; [contradiction | tauto]. }
  set (df := r0 :: df0).
  destruct (py_max (map Year df)) as [m|] eqn:E; [|discriminate].
  rewrite (map_df_filter df m E).
  destruct (py_max_spec _ _ E) as [Hin Hle].
  apply in_map_iff in Hin. destruct Hin as (rm & Hrm & Hm).
  split.
  - intros r. rewrite List.filter_In, Z.eqb_eq. split.
    + intros [Hr ->]. split; [exact Hr|]. intros r' Hr'.
      apply Hle. now apply in_map.
    + intros [Hr Hmax]. split; [exact Hr|].
      assert (Year r <= m)%Z by (apply Hle; now apply in_map).
      assert (m <= Year r)%Z by (rewrite <- Hrm; now apply Hmax).
      lia.
  - intros _ Hnil.
    assert (Hf : In rm (List.filter (fun r => (Year r =? m)%Z) df))
      by (apply List.filter_In; split; [exact Hm | now apply Z.eqb_eq]).
    rewrite Hnil in Hf. contradiction.
Qed.

(** X6.  The frame of the ranking, share, treemap and summary views is the
    part of the filtered frame (before the growth column) that lies in the
    upper year of the range. *)
Theorem year_df_of_filtered (df : DataFrame) (lo hi : Z) (sel : list string) :
  (lo <= hi)%Z ->
  year_df df (lo, hi) sel
  = List.filter (fun r => (Year r =? hi)%Z) (filtered_df df (lo, hi) sel).
Proof.
  intros Hle. rewrite filtered_df_filter, filter_filter.
  unfold year_df. simpl.
  rewrite (getitem_mask_series
             (fun r => (Year r =? hi)%Z && existsb (String.eqb (Country_Name r)) sel)).
  - apply filter_ext_in. intros r _.
    destruct (Z.eqb_spec (Year r) hi) as [->|]; simpl; [|reflexivity].
    rewrite Z.leb_refl. rewrite (proj2 (Z.leb_le lo hi) Hle). reflexivity.
  - unfold series_and, series_eq, isin.
    induction df as [|r df IH]; simpl; [reflexivity|]. now rewrite IH.
Qed.

Lemma year_df_of_filtered_witness :
  (2001 <= 2002)%Z /\
  year_df two_countries (2001, 2002)%Z ["India"]
  = List.filter (fun r => (Year r =? 2002)%Z)
      (filtered_df two_countries (2001, 2002)%Z ["India"]).
Proof.
  assert (H : (2001 <= 2002)%Z) by lia.
  exact (conj H (year_df_of_filtered two_countries 2001 2002 ["India"] H)).
Defined.

(** X9.  What the pipeline shows for a country does not depend on the other
    countries selected: its rows in the output are the output for that
    country selected alone, and there are none when it is not selected. *)
Theorem pipeline_per_country (fill : fill_method) (df : DataFrame)
    (year_range : Z * Z) (sel : list string) (c : string) :
  group c (pipeline fill df year_range sel)
  = if existsb (String.eqb c) sel then pipeline fill df year_range [c] else [].
Proof.
  destruct year_range as [lo hi]. unfold pipeline.
  rewrite group_calculate_gdp_growth. unfold group.
  rewrite filtered_df_filter, filter_filter.
  destruct (existsb (String.eqb c) sel) eqn:E.
  - rewrite filtered_df_filter. f_equal. apply filter_ext_in. intros r _.
    unfold in_country. simpl. rewrite orb_false_r.
    destruct (String.eqb_spec (Country_Name r) c) as [->|Hne]; simpl.
    + now rewrite E, andb_true_r.
    + now rewrite andb_false_r.
  - rewrite (filter_ext_in _ (fun _ => false)).
    + now induction df.
    + intros r _. unfold in_country.
      destruct (String.eqb_spec (Country_Name r) c) as [->|Hne]; simpl;
        [now rewrite E, andb_false_r | reflexivity].
Qed.

(** ** Rows without a growth *)

Lemma calculate_gdp_growth_cell (fill : fill_method) (df : DataFrame) (r : Row) :
  In r (calculate_gdp_growth fill df) ->
  exists r' v, In r' df /\ r = set_cell "GDP Growth %" r' v.
Proof.
  intros H. apply setitem_float_cell in H. destruct H as (r' & v & Hr' & ->).
  exists r', v. split; [|reflexivity].
  apply (Permutation_in _ (sort_values_perm df) Hr').
Qed.

Lemma dropna_calculate_gdp_growth (fill : fill_method) (df : DataFrame) :
  dropna (calculate_gdp_growth fill df) "GDP Growth %"
  = Some (notna_rows "GDP Growth %" (calculate_gdp_growth fill df)).
Proof.
  unfold dropna.
  rewrite (proj2 (forallb_forall _ _)); [reflexivity|].
  intros r Hr. apply calculate_gdp_growth_cell in Hr.
  destruct Hr as (r' & v & _ & ->). apply bool_decide_eq_true. simpl.
  rewrite lookup_insert_eq. eauto.
Qed.

Lemma group_notna_rows (c name : string) (d : DataFrame) :
  group c (notna_rows name d) = notna_rows name (group c d).
Proof.
  unfold group, notna_rows. rewrite !filter_filter.
  apply filter_ext_in. intros r _. apply andb_comm.
Qed.

(** In the output for the rows of one country the first row has no growth,
    so dropping the missing ones drops it. *)
Lemma notna_rows_one_country (fill : fill_method) (c : string) (d : DataFrame) :
  Forall (fun r => Country_Name r = c) d ->
  notna_rows "GDP Growth %" (calculate_gdp_growth fill d)
  = notna_rows "GDP Growth %" (tail (calculate_gdp_growth fill d)).
Proof.
  intros Hd. pose proof (sort_values_names c d Hd) as Hn.
  destruct (calculate_gdp_growth fill d) as [|r t] eqn:E; [reflexivity|].
  assert (H0 : calculate_gdp_growth fill d !! 0%nat = Some r) by now rewrite E.
  apply (one_country_first fill "GDP Growth %" c ∅ _ r Hn (lookup_empty _)) in H0.
  simpl. now rewrite H0.
Qed.

(** X7.  The frame of the growth chart, [growth_df]: it always exists, each
    of its rows has a growth that is not NaN, and for every country it holds
    the rows of the pipeline's output except the country's first row (and
    any other row without a growth). *)
Theorem growth_df_drops_first_row (fill : fill_method) (df : DataFrame)
    (year_range : Z * Z) (sel : list string) :
  exists g,
    growth_df fill df year_range sel = Some g /\
    (forall r, In r g -> exists v, growth r = Some (Flt v) /\ is_nan v = false) /\
    (forall c, group c g
               = notna_rows "GDP Growth %"
                   (tail (group c (pipeline fill df year_range sel)))).
Proof.
  unfold growth_df, pipeline. rewrite dropna_calculate_gdp_growth.
  eexists. split; [reflexivity|]. split.
  - intros r Hr. apply List.filter_In in Hr. destruct Hr as [Hr Hna].
    apply calculate_gdp_growth_cell in Hr. destruct Hr as (r' & v & _ & ->).
    exists v. unfold growth in *. simpl in *.
    rewrite lookup_insert_eq in *. simpl in Hna.
    split; [reflexivity | now apply negb_true_iff].
  - intros c. rewrite group_notna_rows, group_calculate_gdp_growth.
    apply (notna_rows_one_country fill c), group_names.
Qed.

Lemma NoDup_map_filter {A B : Type} (f : A -> B) (P : A -> bool) (l : list A) :
  List.NoDup (map f l) -> List.NoDup (map f (List.filter P l)).
Proof.
  induction l as [|x l IH]; simpl; [auto|]. intros H.
  apply List.NoDup_cons_iff in H. destruct H as [Hx H].
  destruct (P x); simpl; [|auto]. constructor; [|auto].
  intros Hin. apply Hx. apply in_map_iff in Hin. destruct Hin as (y & E & Hy).
  apply List.filter_In in Hy. apply in_map_iff. exists y. tauto.
Qed.

(** Rows of one key in a frame without repeated keys: at most one. *)
Lemma one_key_one_row (k : string * Z) (d : DataFrame) :
  List.NoDup (map key d) -> Forall (fun r => key r = k) d -> (length d <= 1)%nat.
Proof.
  destruct d as [|r1 [|r2 d]]; simpl; intros Hnd Hk; try lia.
  apply List.NoDup_cons_iff in Hnd. destruct Hnd as [Hnd _]. exfalso. apply Hnd.
  apply Forall_cons in Hk. destruct Hk as [E1 Hk].
  apply Forall_cons in Hk. destruct Hk as [E2 _].
  left. congruence.
Qed.

Lemma nil_of_no_member {A : Type} (l : list A) : (forall x, ~ In x l) -> l = [].
Proof.
  destruct l as [|x l]; [reflexivity|]. intros H. destruct (H x). now left.
Qed.

(** X8.  With a range of a single year, on a frame with one row per country
    and year, no row of the output has a growth: the growth chart is empty. *)
Theorem growth_df_single_year (fill : fill_method) (df : DataFrame) (y : Z)
    (sel : list string) :
  List.NoDup (map key df) ->
  growth_df fill df (y, y) sel = Some [].
Proof.
  intros Hnd. unfold growth_df, pipeline. rewrite dropna_calculate_gdp_growth.
  f_equal. apply nil_of_no_member. intros r Hr.
  set (F := filtered_df df (y, y) sel) in *.
  assert (Hg : In r (group (Country_Name r)
                       (notna_rows "GDP Growth %" (calculate_gdp_growth fill F)))).
  { apply List.filter_In. split; [exact Hr|]. apply String.eqb_refl. }
  rewrite group_notna_rows, group_calculate_gdp_growth in Hg.
  rewrite (notna_rows_one_country fill (Country_Name r)) in Hg by apply group_names.
  assert (Hlen : (length (calculate_gdp_growth fill (group (Country_Name r) F)) <= 1)%nat).
  { rewrite calculate_gdp_growth_length.
    apply (one_key_one_row (Country_Name r, y)).
    - unfold group, F. rewrite filtered_df_filter. now do 2 apply NoDup_map_filter.
    - apply List.Forall_forall. intros x Hx. apply List.filter_In in Hx.
      destruct Hx as [Hx Hc]. apply String.eqb_eq in Hc.
      unfold F in Hx. rewrite filtered_df_filter in Hx.
      apply List.filter_In in Hx. destruct Hx as [_ Hx]. apply kept_bool in Hx.
      destruct Hx as (H1 & H2 & _). unfold key. f_equal; [exact Hc | lia]. }
  destruct (calculate_gdp_growth fill (group (Country_Name r) F)) as [|r1 [|r2 t]];
    simpl in *; try contradiction. lia.
Qed.

Lemma growth_df_single_year_witness :
  List.NoDup (map key two_countries) /\
  growth_df Pad two_countries (2001, 2001)%Z ["India"; "China"] = Some [].
Proof.
  assert (Hnd : List.NoDup (map key two_countries)).
  { unfold two_countries, key. simpl.
    repeat (constructor; [simpl; intuition discriminate|]). constructor. }
  exact (conj Hnd (growth_df_single_year Pad two_countries 2001
                     ["India"; "China"] Hnd)).
Defined.

(** ** The growth of the filtered frame and of the whole frame *)

Lemma setitem_float_lookup name (d : DataFrame) (col : list float) (i : nat) (r : Row) :
  setitem_float d name col !! i = Some r ->
  exists m v, d !! i = Some m /\ col !! i = Some v /\ r = set_cell name m v.
Proof.
  unfold setitem_float. intros H. apply lookup_zip_with_Some in H.
  destruct H as (m & v & -> & Hm & Hv). eauto.
Qed.

Lemma annotate_lookup (fill : fill_method) name (last : gmap string float)
    (d : DataFrame) (i : nat) (m : Row) :
  d !! i = Some m ->
  exists v, annotate fill name last d !! i = Some (set_cell name m v).
Proof.
  intros Hm. unfold annotate, setitem_float.
  destruct (lookup_lt_is_Some_2
              (series_mul (pct_change_from fill last (map Country_Name d) (map GDP d)) 100)
              i) as [v Hv].
  { rewrite growth_column_length. now apply lookup_lt_Some in Hm. }
  exists v. apply lookup_zip_with_Some. eauto.
Qed.

Lemma filter_false {A : Type} (l : list A) : List.filter (fun _ => false) l = [].
Proof. now induction l. Qed.

Lemma group_filtered_df (c : string) (df : DataFrame) (lo hi : Z) (sel : list string) :
  group c (filtered_df df (lo, hi) sel)
  = if existsb (String.eqb c) sel
    then List.filter (fun r => (lo <=? Year r)%Z && (Year r <=? hi)%Z) (group c df)
    else [].
Proof.
  unfold group. rewrite filtered_df_filter, !filter_filter.
  destruct (existsb (String.eqb c) sel) eqn:E.
  - apply filter_ext_in. intros r _. unfold in_country.
    destruct (String.eqb_spec (Country_Name r) c) as [->|Hne]; simpl.
    + now rewrite E.
    + now rewrite andb_false_r.
  - rewrite (filter_ext_in _ (fun _ => false)); [now induction df|].
    intros r _. unfold in_country.
    destruct (String.eqb_spec (Country_Name r) c) as [->|Hne]; simpl;
      [now rewrite E, andb_false_r | reflexivity].
Qed.

(** In the sorted rows of one country the rows of a year range are next to
    each other, after the rows of the years below the range. *)
Lemma year_range_segment (c : string) (lo hi : Z) (G : DataFrame) :
  sorted_by_key G -> Forall (fun r => Country_Name r = c) G ->
  exists A B,
    G = (A ++ List.filter (fun r => (lo <=? Year r)%Z && (Year r <=? hi)%Z) G ++ B)%list
    /\ Forall (fun r => (Year r < lo)%Z) A.
Proof.
  induction 1 as [|x G HG IH Hx]; intros Hc.
  - exists [], []. split; [reflexivity | constructor].
  - apply Forall_cons in Hc. destruct Hc as [Hxc Hc].
    destruct (IH Hc) as (A & B & E & HA). clear IH.
    assert (Hyear : forall y, In y G -> (Year x <= Year y)%Z).
    { intros y Hy. rewrite List.Forall_forall in Hx, Hc.
      specialize (Hx y Hy). rewrite key_le_same_name in Hx
        by (rewrite Hxc; symmetry; now apply Hc).
      now apply Z.leb_le. }
    simpl. destruct (Z.leb_spec lo (Year x)) as [Hlo | Hlo]; simpl.
    + assert (HA' : A = []).
      { apply nil_of_no_member. intros y Hy.
        assert (In y G) by (rewrite E; apply in_or_app; now left).
        rewrite List.Forall_forall in HA. specialize (HA y Hy).
        specialize (Hyear y H). lia. }
      subst A. simpl in E.
      destruct (Z.leb_spec (Year x) hi) as [Hhi | Hhi].
      * exists [], B. split; [simpl; now rewrite <- E | constructor].
      * exists [], (x :: G). split; [|constructor].
        rewrite (filter_ext_in _ (fun _ => false)); [now rewrite filter_false|].
        intros y Hy. specialize (Hyear y Hy).
        destruct (Z.leb_spec (Year y) hi); [lia | now rewrite andb_false_r].
    + exists (x :: A), B. split; [simpl; now rewrite <- E|].
      constructor; [lia | exact HA].
Qed.

Lemma set_cell_growth_eq (m : Row) (v w : float) :
  rest (set_cell "GDP Growth %" m v) !! "GDP Growth %" = Some (Flt w) -> v = w.
Proof.
  simpl. rewrite lookup_insert_eq. intros H. congruence.
Qed.

(** Without filling, the growth of a row after the first comes from its GDP
    and the GDP of the row before it, missing or not. *)
Lemma one_country_step_NoFill name (c : string) (d : DataFrame) :
  Forall (fun r => Country_Name r = c) d ->
  forall (last : gmap string float) (i : nat) (m0 m1 r1 : Row),
  d !! i = Some m0 -> d !! S i = Some m1 ->
  annotate NoFill name last d !! S i = Some r1 ->
  rest r1 !! name = Some (Flt ((GDP m1 / GDP m0 - 1) * 100)%float).
Proof.
  intros Hd last i m0 m1 r1 H0 H1 Hr.
  destruct (one_country_filled NoFill name c d Hd last i r1 Hr)
    as (f0 & f1 & F0 & F1 & Hg).
  rewrite ffill_series_NoFill, list_lookup_fmap in F0, F1.
  rewrite H0 in F0. rewrite H1 in F1. simpl in F0, F1.
  rewrite Hg. congruence.
Qed.

(** X10.  The rows of a country in the pipeline's output (line 98) are a run
    of consecutive rows among that country's rows in the growth frame of the
    whole data (line 194): the same rows, growth cell apart.  A row that
    directly follows a row with a GDP in the pipeline's output is the same
    row in both, growth included; and when [pct_change] fills nothing, so is
    every row of the run after its first. *)
Theorem pipeline_rows_in_whole_frame (fill : fill_method) (df : DataFrame)
    (lo hi : Z) (sel : list string) (c : string) :
  exists k : nat,
    (forall i r,
       group c (pipeline fill df (lo, hi) sel) !! i = Some r ->
       exists r', group c (calculate_gdp_growth fill df) !! (k + i)%nat = Some r' /\
                  drop_growth r' = drop_growth r) /\
    (forall i r0 r1,
       group c (pipeline fill df (lo, hi) sel) !! i = Some r0 ->
       group c (pipeline fill df (lo, hi) sel) !! S i = Some r1 ->
       is_nan (GDP r0) = false ->
       group c (calculate_gdp_growth fill df) !! (k + S i)%nat = Some r1) /\
    (fill = NoFill ->
     forall i r0 r1,
       group c (pipeline fill df (lo, hi) sel) !! i = Some r0 ->
       group c (pipeline fill df (lo, hi) sel) !! S i = Some r1 ->
       group c (calculate_gdp_growth fill df) !! (k + S i)%nat = Some r1).
Proof.
  unfold pipeline. rewrite !group_calculate_gdp_growth, group_filtered_df.
  destruct (existsb (String.eqb c) sel).
  2:{ exists 0%nat. split; [|split]; intros; discriminate. }
  set (P := fun r => (lo <=? Year r)%Z && (Year r <=? hi)%Z).
  change (calculate_gdp_growth fill (List.filter P (group c df)))
    with (annotate fill "GDP Growth %" ∅ (sort_values (List.filter P (group c df)))).
  change (calculate_gdp_growth fill (group c df))
    with (annotate fill "GDP Growth %" ∅ (sort_values (group c df))).
  rewrite <- filter_sort_values.
  set (G := sort_values (group c df)).
  assert (HG : Forall (fun r => Country_Name r = c) G)
    by apply sort_values_names, group_names.
  assert (HM : Forall (fun r => Country_Name r = c) (List.filter P G)).
  { apply List.Forall_forall. intros r Hr. apply List.filter_In in Hr.
    rewrite List.Forall_forall in HG. now apply HG. }
  destruct (year_range_segment c lo hi G (sort_values_sorted _) HG)
    as (A & B & E & _).
  fold P in E. set (M := List.filter P G) in *.
  assert (Hpos : forall i m, M !! i = Some m -> G !! (length A + i)%nat = Some m).
  { intros i m Hm. rewrite E, lookup_app_r by lia.
    replace (length A + i - length A)%nat with i by lia.
    now apply lookup_app_l_Some. }
  exists (length A). split; [|split].
  - intros i r Hr. apply setitem_float_lookup in Hr.
    destruct Hr as (m & v & Hm & _ & ->).
    destruct (annotate_lookup fill "GDP Growth %" ∅ G _ m (Hpos i m Hm)) as [w Hw].
    exists (set_cell "GDP Growth %" m w). split; [exact Hw|].
    now rewrite !drop_growth_set_cell.
  - intros i r0 r1 H0 H1 Hnan.
    pose proof (one_country_step fill "GDP Growth %" c M HM ∅ i r0 r1 H0 H1 Hnan)
      as Hv.
    apply setitem_float_lookup in H0, H1.
    destruct H0 as (m0 & v0 & Hm0 & _ & ->).
    destruct H1 as (m1 & v1 & Hm1 & _ & ->).
    apply set_cell_growth_eq in Hv.
    destruct (annotate_lookup fill "GDP Growth %" ∅ G _ m0 (Hpos i m0 Hm0))
      as [w0 Hw0].
    destruct (annotate_lookup fill "GDP Growth %" ∅ G _ m1 (Hpos (S i) m1 Hm1))
      as [w1 Hw1].
    replace (length A + S i)%nat with (S (length A + i)) in * by lia.
    pose proof (one_country_step fill "GDP Growth %" c G HG ∅ _ _ _ Hw0 Hw1 Hnan)
      as Hw.
    apply set_cell_growth_eq in Hw.
    rewrite Hw1. simpl in Hv, Hw. congruence.
  - intros Hfill i r0 r1 H0 H1. rewrite Hfill in *.
    pose proof H1 as Hr1.
    apply setitem_float_lookup in H0, H1.
    destruct H0 as (m0 & v0 & Hm0 & _ & ->).
    destruct H1 as (m1 & v1 & Hm1 & _ & ->).
    pose proof (one_country_step_NoFill "GDP Growth %" c M HM ∅ i m0 m1 _
                  Hm0 Hm1 Hr1) as Hv.
    apply set_cell_growth_eq in Hv.
    destruct (annotate_lookup NoFill "GDP Growth %" ∅ G _ m1 (Hpos (S i) m1 Hm1))
      as [w1 Hw1].
    pose proof (Hpos i m0 Hm0) as G0. pose proof (Hpos (S i) m1 Hm1) as G1.
    replace (length A + S i)%nat with (S (length A + i)) in * by lia.
    pose proof (one_country_step_NoFill "GDP Growth %" c G HG ∅ _ m0 m1 _
                  G0 G1 Hw1) as Hw.
    apply set_cell_growth_eq in Hw.
    rewrite Hw1. congruence.
Qed.

(** With the forward fill a row after a missing GDP can differ: in the range
    2000-2001 of [missing_2000] nothing precedes the missing GDP of 2000, so
    2001 has no growth, while over the whole frame 2000 is filled from 1999. *)
Lemma pipeline_rows_after_missing_gdp :
  map growth (pipeline Pad missing_2000 (2000, 2001)%Z ["India"])
  = [Some (Flt nan); Some (Flt nan)] /\
  map growth (calculate_gdp_growth Pad missing_2000)
  = [Some (Flt nan); Some (Flt 0); Some (Flt 0x1.3ffffffffffffp+4)].
Proof. split; vm_compute; reflexivity. Qed.

(** The theorem at the sample: India's 2002 row in the range 2001-2002 is
    India's 2002 row of the whole frame. *)
Lemma pipeline_rows_in_whole_frame_witness :
  let r0 := set_cell "GDP Growth %" (mkRow "India" 2001 110 ∅) nan in
  let r1 := set_cell "GDP Growth %" (mkRow "India" 2002 121 ∅)
              0x1.4000000000005p+3 in
  group "India" (pipeline Pad two_countries (2001, 2002)%Z ["India"; "China"])
    !! 0%nat = Some r0 /\
  group "India" (pipeline Pad two_countries (2001, 2002)%Z ["India"; "China"])
    !! 1%nat = Some r1 /\
  exists k : nat,
    group "India" (calculate_gdp_growth Pad two_countries) !! (k + 1)%nat = Some r1.
Proof.
  intros r0 r1.
  assert (H0 : group "India"
                 (pipeline Pad two_countries (2001, 2002)%Z ["India"; "China"])
               !! 0%nat = Some r0) by (vm_compute; reflexivity).
  assert (H1 : group "India"
                 (pipeline Pad two_countries (2001, 2002)%Z ["India"; "China"])
               !! 1%nat = Some r1) by (vm_compute; reflexivity).
  refine (conj H0 (conj H1 _)).
  destruct (pipeline_rows_in_whole_frame Pad two_countries 2001 2002
              ["India"; "China"] "India") as (k & _ & Hk & _).
  exists k. exact (Hk 0%nat r0 r1 H0 H1 eq_refl).
Defined.

(** ** The top performers (lines 194-195) *)

Lemma dropna_total (name : string) (d : DataFrame) :
  (forall r, In r d -> is_Some (rest r !! name)) ->
  dropna d name = Some (notna_rows name d).
Proof.
  intros H. unfold dropna. rewrite (proj2 (forallb_forall _ _)); [reflexivity|].
  intros r Hr. apply bool_decide_eq_true. now apply H.
Qed.

Lemma key_drop_growth (r : Row) : key (drop_growth r) = key r.
Proof. reflexivity. Qed.

Lemma calculate_gdp_growth_keys (fill : fill_method) (df : DataFrame) :
  Permutation (map key (calculate_gdp_growth fill df)) (map key df).
Proof.
  rewrite <- (map_ext _ _ key_drop_growth (calculate_gdp_growth fill df)).
  rewrite <- (map_ext _ _ key_drop_growth df).
  rewrite <- (map_map drop_growth key (calculate_gdp_growth fill df)).
  rewrite <- (map_map drop_growth key df).
  apply Permutation_map.
  unfold calculate_gdp_growth, groupby_pct_change.
  rewrite drop_growth_setitem_float by apply growth_column_length.
  apply Permutation_map, sort_values_perm.
Qed.

Lemma NoDup_names_of_keys (y : Z) (l : DataFrame) :
  List.NoDup (map key l) -> Forall (fun r => Year r = y) l ->
  List.NoDup (map Country_Name l).
Proof.
  induction l as [|x l IH]; simpl; intros Hnd Hy; [constructor|].
  apply List.NoDup_cons_iff in Hnd. destruct Hnd as [Hx Hnd].
  apply Forall_cons in Hy. destruct Hy as [Hxy Hy].
  constructor; [|now apply IH].
  intros Hin. apply Hx. apply in_map_iff in Hin. destruct Hin as (z & E & Hz).
  apply in_map_iff. exists z. split; [|exact Hz].
  rewrite List.Forall_forall in Hy. unfold key. rewrite E, Hxy.
  now rewrite (Hy z Hz).
Qed.

(** In the output for the rows of one country, without repeated keys, a row
    with a growth comes after a row of an earlier year. *)
Lemma growth_needs_earlier_year (fill : fill_method) (c : string) (d : DataFrame)
    (r : Row) (v : float) :
  Forall (fun r => Country_Name r = c) d ->
  List.NoDup (map key d) ->
  In r (calculate_gdp_growth fill d) ->
  growth r = Some (Flt v) -> is_nan v = false ->
  exists r', In r' d /\ (Year r' < Year r)%Z.
Proof.
  intros Hc Hnd Hr Hg Hv.
  pose proof (sort_values_names c d Hc) as Hn.
  apply list_elem_of_In, list_elem_of_lookup_1 in Hr. destruct Hr as [i Hi].
  destruct i as [|j].
  { apply (one_country_first fill "GDP Growth %" c ∅ _ r Hn (lookup_empty _)) in Hi.
    unfold growth in Hg. rewrite Hi in Hg.
    assert (E : v = nan) by congruence. subst v. discriminate. }
  destruct (lookup_lt_is_Some_2 (calculate_gdp_growth fill d) j) as [r0 H0].
  { apply lookup_lt_Some in Hi. lia. }
  pose proof (sorted_by_key_adjacent _ (calculate_gdp_growth_sorted fill d)
                j r0 r H0 Hi) as Hle.
  assert (In0 : In r0 (calculate_gdp_growth fill d))
    by (apply list_elem_of_In; eapply list_elem_of_lookup_2; eauto).
  assert (Inr : In r (calculate_gdp_growth fill d))
    by (apply list_elem_of_In; eapply list_elem_of_lookup_2; eauto).
  destruct (calculate_gdp_growth_cell fill d r0 In0) as (r0' & v0 & Hr0' & E0).
  destruct (calculate_gdp_growth_cell fill d r Inr) as (r1' & v1 & Hr1' & E1).
  rewrite List.Forall_forall in Hc.
  assert (Hnames : Country_Name r0 = Country_Name r).
  { rewrite E0, E1. simpl. rewrite (Hc r0' Hr0'), (Hc r1' Hr1'). reflexivity. }
  rewrite (key_le_same_name _ _ Hnames) in Hle. apply Z.leb_le in Hle.
  exists r0'. split; [exact Hr0'|].
  assert (Hne : key r0 <> key r).
  { intros Ek.
    assert (Hk : List.NoDup (map key (calculate_gdp_growth fill d))).
    { apply (Permutation_NoDup (Permutation_sym (calculate_gdp_growth_keys fill d))).
      exact Hnd. }
    apply NoDup_ListNoDup in Hk.
    assert (K0 : map key (calculate_gdp_growth fill d) !! j = Some (key r0))
      by (rewrite list_lookup_fmap, H0; reflexivity).
    assert (K1 : map key (calculate_gdp_growth fill d) !! S j = Some (key r0))
      by (rewrite list_lookup_fmap, Hi, Ek; reflexivity).
    pose proof (NoDup_lookup _ _ _ _ Hk K0 K1). lia. }
  assert (Hy : Year r0 <> Year r).
  { intros Ey. apply Hne. unfold key. now rewrite Hnames, Ey. }
  replace (Year r0') with (Year r0) by (rewrite E0; reflexivity). lia.
Qed.

(** X11.  The frame of the top performers, on a loaded frame with one row
    per country and year: it always exists; it has at most one row per
    country; each row is of the upper year of the range and has a growth that
    is not NaN; and its country has a row of an earlier year in the loaded
    frame, inside the selected range or not. *)
Theorem latest_rows (fill : fill_method) (df : DataFrame) (year_range : Z * Z) :
  List.NoDup (map key df) ->
  exists l,
    latest fill df year_range = Some l /\
    List.NoDup (map Country_Name l) /\
    forall r, In r l ->
      Year r = snd year_range /\
      (exists v, growth r = Some (Flt v) /\ is_nan v = false) /\
      (exists r', In r' df /\ Country_Name r' = Country_Name r /\
                  (Year r' < Year r)%Z).
Proof.
  intros Hnd. unfold latest.
  rewrite (getitem_mask_series (fun r => (Year r =? snd year_range)%Z))
    by (unfold series_eq; now rewrite map_map).
  rewrite dropna_total.
  2:{ intros r Hr. apply List.filter_In in Hr. destruct Hr as [Hr _].
      apply calculate_gdp_growth_cell in Hr. destruct Hr as (r' & v & _ & ->).
      simpl. rewrite lookup_insert_eq. eauto. }
  eexists. split; [reflexivity|]. split.
  - apply (NoDup_names_of_keys (snd year_range)).
    + unfold notna_rows. do 2 apply NoDup_map_filter.
      apply (Permutation_NoDup (Permutation_sym (calculate_gdp_growth_keys fill df))).
      exact Hnd.
    + apply List.Forall_forall. intros r Hr.
      apply List.filter_In in Hr. destruct Hr as [Hr _].
      apply List.filter_In in Hr. destruct Hr as [_ Hr]. now apply Z.eqb_eq.
  - intros r Hr. apply List.filter_In in Hr. destruct Hr as [Hr Hna].
    apply List.filter_In in Hr. destruct Hr as [Hr Hy]. apply Z.eqb_eq in Hy.
    split; [exact Hy|].
    destruct (calculate_gdp_growth_cell fill df r Hr) as (r' & v & _ & E).
    assert (Hg : growth r = Some (Flt v))
      by (rewrite E; unfold growth; simpl; apply lookup_insert_eq).
    assert (Hv : is_nan v = false).
    { unfold growth in Hg. rewrite Hg in Hna. simpl in Hna.
      now apply negb_true_iff. }
    split; [eauto|].
    assert (Hgr : In r (calculate_gdp_growth fill (group (Country_Name r) df))).
    { rewrite <- group_calculate_gdp_growth. apply List.filter_In.
      split; [exact Hr | apply String.eqb_refl]. }
    destruct (growth_needs_earlier_year fill (Country_Name r)
                (group (Country_Name r) df) r v (group_names _ _)
                (NoDup_map_filter key _ df Hnd) Hgr Hg Hv) as (r0 & Hr0 & Hlt).
    exists r0. apply List.filter_In in Hr0. destruct Hr0 as [Hr0 Hc].
    apply String.eqb_eq in Hc. auto.
Qed.

Lemma latest_rows_witness :
  List.NoDup (map key two_countries) /\
  exists l, latest Pad two_countries (2001, 2002)%Z = Some l /\
            List.NoDup (map Country_Name l).
Proof.
  assert (Hnd : List.NoDup (map key two_countries)).
  { unfold two_countries, key. simpl.
    repeat (constructor; [simpl; intuition discriminate|]). constructor. }
  destruct (latest_rows Pad two_countries (2001, 2002)%Z Hnd) as (l & H1 & H2 & _).
  exact (conj Hnd (ex_intro _ l (conj H1 H2))).
Defined.

(** ** The first view and the flag *)

Lemma show_flagged (b : bool) (ss : gmap string bool) :
  is_Some (ss !! "filters_applied") ->
  show b ss = (Dashboard, <["filters_applied" := true]> ss).
Proof.
  intros H. unfold show. rewrite (bool_decide_eq_true_2 _ H). reflexivity.
Qed.

Lemma session_flagged (submits : list bool) :
  forall ss : gmap string bool,
  is_Some (ss !! "filters_applied") ->
  forall n v, session submits ss !! n = Some v -> v = Dashboard.
Proof.
  induction submits as [|b submits IH]; intros ss H n v; simpl; [discriminate|].
  rewrite (show_flagged b ss H). destruct n as [|n]; simpl.
  - now intros [= <-].
  - apply IH. rewrite lookup_insert_eq. eauto.
Qed.

Lemma session_initial (submits : list bool) :
  forall (ss : gmap string bool) (n : nat) (v : view),
  session submits ss !! n = Some v ->
  (v = InitialView <->
   ss !! "filters_applied" = None /\
   forall k b, (k <= n)%nat -> submits !! k = Some b -> b = false).
Proof.
  induction submits as [|b submits IH]; intros ss n v; simpl; [discriminate|].
  destruct (ss !! "filters_applied") as [f|] eqn:F.
  - rewrite (show_flagged b ss) by (rewrite F; eauto).
    intros Hv.
    assert (E : v = Dashboard).
    { destruct n as [|n]; simpl in Hv; [congruence|].
      apply (session_flagged submits _ (ltac:(rewrite lookup_insert_eq; eauto)) n v Hv). }
    subst v. split; [discriminate | intros [[=] _]].
  - unfold show. rewrite F.
    rewrite (bool_decide_eq_false_2 (is_Some None)) by (intros [x [=]]).
    destruct b; simpl.
    + intros Hv.
      assert (E : v = Dashboard).
      { destruct n as [|n]; simpl in Hv; [congruence|].
        apply (session_flagged submits _ (ltac:(rewrite lookup_insert_eq; eauto)) n v Hv). }
      subst v. split; [discriminate|]. intros [_ H].
      specialize (H 0%nat true (Nat.le_0_l _) eq_refl). discriminate.
    + destruct n as [|n]; simpl.
      * intros [= <-]. split; [|reflexivity]. intros _. split; [reflexivity|].
        intros k b Hk. assert (k = 0)%nat by lia. subst k. simpl. congruence.
      * intros Hv. rewrite (IH ss n v Hv), F. split.
        -- intros [_ H]. split; [reflexivity|]. intros [|k] b Hk; simpl.
           ++ congruence.
           ++ apply H. lia.
        -- intros [_ H]. split; [reflexivity|]. intros k b Hk Hb.
           apply (H (S k) b); [lia | exact Hb].
Qed.

(** X12.  Over the runs of a session: a run shows the first view exactly
    when the session state had no "filters_applied" key at the start and the
    form has not been submitted in this run or any run before it; so once a
    run has shown the dashboard, every later run shows the dashboard. *)
Theorem session_views (submits : list bool) (ss : gmap string bool) :
  (forall n v, session submits ss !! n = Some v ->
     (v = InitialView <->
      ss !! "filters_applied" = None /\
      forall k b, (k <= n)%nat -> submits !! k = Some b -> b = false)) /\
  (forall i j v, (i <= j)%nat ->
     session submits ss !! i = Some Dashboard ->
     session submits ss !! j = Some v -> v = Dashboard).
Proof.
  split; [apply session_initial|].
  intros i j v Hij Hi Hj. destruct v; [|reflexivity]. exfalso.
  destruct (proj1 (session_initial submits ss j InitialView Hj) eq_refl) as [F H].
  assert (E : Dashboard = InitialView).
  { apply (session_initial submits ss i Dashboard Hi). split; [exact F|].
    intros k b Hk. apply H. lia. }
  discriminate.
Qed.

(** ** The loaded frame *)

Lemma map_cell_values (c : cell) :
  map_cell reverse_region c = NaN \/
  exists region cs, In (region, cs) region_map /\ map_cell reverse_region c = Str region.
Proof.
  destruct c as [code|z|f]; try (left; reflexivity).
  unfold map_cell. destruct (reverse_region !! code) as [region|] eqn:L.
  - right. apply reverse_region_spec in L. destruct L as (cs & Hr & _).
    exists region, cs. auto.
  - left. reflexivity.
Qed.

Lemma load_data_frame_region (df : RawFrame) :
  has_column "Country Code" df = true ->
  exists codes,
    getitem (load_data_frame df) "Region" = Some (series_map codes reverse_region) /\
    getitem (if has_column "Value" df then rename df "Value" "GDP" else df)
      "Country Code" = Some codes.
Proof.
  intros H. unfold load_data_frame.
  set (df1 := if has_column "Value" df then rename df "Value" "GDP" else df).
  assert (C1 : has_column "Country Code" df1 = true).
  { unfold df1. destruct (has_column "Value" df); [|exact H].
    rewrite has_column_rename_other; [exact H | discriminate | discriminate]. }
  rewrite C1. apply has_column_true in C1. destruct C1 as [codes C1].
  rewrite C1. exists codes. split; [apply getitem_setitem_eq | reflexivity].
Qed.

(** X13.  In a frame loaded from a file with a "Country Code" column, every
    cell of "Region" is NaN or the label of one of the six regions of the
    table. *)
Theorem load_data_region_values (df : RawFrame) (regions : list cell) :
  has_column "Country Code" df = true ->
  getitem (load_data_frame df) "Region" = Some regions ->
  Forall (fun c => c = NaN \/
                   exists region cs, In (region, cs) region_map /\ c = Str region)
         regions.
Proof.
  intros H Hr. destruct (load_data_frame_region df H) as (codes & E & _).
  rewrite E in Hr. injection Hr as <-. unfold series_map.
  apply List.Forall_forall. intros c Hc. apply in_map_iff in Hc.
  destruct Hc as (x & <- & _). apply map_cell_values.
Qed.

Lemma load_data_region_values_witness :
  let df := [("Country Code", [Str "IN"; Str "ZZ"; Int 7]); ("Value", [Flt 1; Flt 2; Flt 3])] in
  has_column "Country Code" df = true /\
  getitem (load_data_frame df) "Region" = Some [Str "Asia"; NaN; NaN] /\
  Forall (fun c => c = NaN \/
                   exists region cs, In (region, cs) region_map /\ c = Str region)
         [Str "Asia"; NaN; NaN].
Proof.
  intros df.
  assert (H1 : has_column "Country Code" df = true) by reflexivity.
  assert (H2 : getitem (load_data_frame df) "Region" = Some [Str "Asia"; NaN; NaN])
    by reflexivity.
  exact (conj H1 (conj H2 (load_data_region_values df _ H1 H2))).
Defined.

Lemma getitem_In (df : RawFrame) (name : string) (col : list cell) :
  getitem df name = Some col -> exists n, In (n, col) df.
Proof.
  induction df as [|[n c] df IH]; simpl; [discriminate|].
  destruct (String.eqb n name).
  - intros [= <-]. exists n. now left.
  - intros H. destruct (IH H) as [n' Hn']. exists n'. now right.
Qed.

(** X14.  The loader keeps the frame rectangular: when every column of the
    file has n values, every column of the loaded frame has n values, the
    derived "Region" included. *)
Theorem load_data_frame_rows (df : RawFrame) (n : nat) :
  Forall (fun nc => length (snd nc) = n) df ->
  Forall (fun nc => length (snd nc) = n) (load_data_frame df).
Proof.
  intros H. unfold load_data_frame.
  set (df1 := if has_column "Value" df then rename df "Value" "GDP" else df).
  assert (H1 : Forall (fun nc => length (snd nc) = n) df1).
  { unfold df1. destruct (has_column "Value" df); [|exact H].
    unfold rename. apply List.Forall_forall. intros nc Hnc.
    apply in_map_iff in Hnc. destruct Hnc as (x & <- & Hx). simpl.
    rewrite List.Forall_forall in H. now apply H. }
  destruct (has_column "Country Code" df1); [|exact H1].
  destruct (getitem df1 "Country Code") as [codes|] eqn:C; [|exact H1].
  assert (Hlen : length (series_map codes reverse_region) = n).
  { unfold series_map. rewrite length_map.
    destruct (getitem_In _ _ _ C) as [m Hm].
    rewrite List.Forall_forall in H1. apply (H1 _ Hm). }
  unfold setitem. destruct (has_column "Region" df1).
  - apply List.Forall_forall. intros nc Hnc.
    apply in_map_iff in Hnc. destruct Hnc as (x & <- & Hx).
    destruct (String.eqb (fst x) "Region"); [exact Hlen|].
    rewrite List.Forall_forall in H1. now apply H1.
  - apply Forall_app. split; [exact H1|]. constructor; [exact Hlen | constructor].
Qed.

Lemma load_data_frame_rows_witness :
  let df := [("Country Code", [Str "IN"; Str "ZZ"]); ("Value", [Flt 1; Flt 2])] in
  Forall (fun nc => length (snd nc) = 2%nat) df /\
  Forall (fun nc => length (snd nc) = 2%nat) (load_data_frame df).
Proof.
  intros df.
  assert (H : Forall (fun nc => length (snd nc) = 2%nat) df)
    by (repeat constructor).
  exact (conj H (load_data_frame_rows df 2 H)).
Defined.

(** ** Loads that fail *)

Lemma load_data_miss (w : world) :
  cache w = None -> gdp_csv w = None ->
  load_data w = (None, {| gdp_csv := None; cache := None; reads := S (reads w) |}).
Proof.
  intros C F. unfold load_data, cache_data, load_data_body, read_csv.
  rewrite C, F. reflexivity.
Qed.

Lemma run_failures (tr : list event) :
  forall (w : world) (i n : nat),
  cache w = None ->
  fst (run tr w) !! i = Some (None, n) -> n = (reads w + S i)%nat.
Proof.
  induction tr as [|[|content] tr IH]; intros w i n C; simpl.
  - discriminate.
  - destruct (gdp_csv w) as [f|] eqn:F.
    + destruct (load_data w) as [r w1] eqn:L.
      assert (Hr : r = Some (load_data_frame f)).
      { unfold load_data, cache_data, load_data_body, read_csv in L.
        rewrite C, F in L. simpl in L. congruence. }
      subst r. pose proof (load_data_returns _ _ _ L) as C1.
      destruct (run_cached tr w1 _ C1) as (H1 & _).
      destruct (run tr w1) as [rs w2]. simpl in *.
      destruct i as [|i]; simpl; [discriminate|].
      intros Hi. rewrite List.Forall_forall in H1.
      assert (Hc : (None, n) = (Some (load_data_frame f), reads w1)).
      { apply H1. apply list_elem_of_In. eapply list_elem_of_lookup_2; eauto. }
      discriminate.
    + rewrite (load_data_miss w C F).
      pose proof (IH {| gdp_csv := None; cache := None; reads := S (reads w) |}) as IH1.
      destruct (run tr _) as [rs w2]. simpl in *.
      destruct i as [|i]; simpl.
      * intros [= <-]. lia.
      * intros Hi. rewrite (IH1 i n eq_refl Hi). lia.
  - apply (IH {| gdp_csv := content; cache := cache w; reads := reads w |}). exact C.
Qed.

(** X15.  A call of [load_data] that raises has read the file, and nothing
    is cached for it: when the i-th call of the process (counted from 0)
    raises, the file has been read i+1 times, once by each call so far, and
    every earlier call has raised too. *)
Theorem load_data_failure_rereads (file : option RawFrame) (tr : list event)
    (i n : nat) :
  fst (run tr (boot file)) !! i = Some (None, n) ->
  n = S i /\
  forall j c, (j <= i)%nat -> fst (run tr (boot file)) !! j = Some c -> fst c = None.
Proof.
  intros Hi. split; [apply (run_failures tr (boot file) i n eq_refl Hi)|].
  intros j [r m] Hj Hc. simpl. destruct r as [d|]; [|reflexivity].
  destruct (run_stable tr (boot file) j d m Hc) as [H _].
  specialize (H i (None, n) Hj Hi). discriminate.
Qed.

Lemma load_data_failure_rereads_witness :
  fst (run [Rerun; Rerun] (boot None)) !! 1%nat = Some (None, 2%nat) /\
  2%nat = 2%nat.
Proof.
  assert (H : fst (run [Rerun; Rerun] (boot None)) !! 1%nat = Some (None, 2%nat))
    by reflexivity.
  exact (conj H (proj1 (load_data_failure_rereads None [Rerun; Rerun] 1 2 H))).
Defined.
